(** * Aggregation server: prompt fan-out to four text-generation providers
      and export of the answers as a slide deck.

    The development embeds the Express server of the repository (two
    variants of the same file: a plain one and one with logging) and
    states its request/response contract.

    - [Js]      : the JavaScript values the handlers manipulate (UTF-16
                  strings, decoded JSON, property access, truthiness,
                  [JSON.stringify (v, null, 2)], base64).
    - [Server]  : the handlers [GET /health] and [POST /api/aggregate],
                  written in a small trace-and-exception monad.
    - theorems  : the contract, claim by claim. *)

From Stdlib Require Import List ZArith NArith Lia Bool String Ascii DecimalString.
From Stdlib Require DecimalPos DecimalZ.
Import ListNotations.

Set Warnings "-register-all".
Local Open Scope Z_scope.

(* ================================================================== *)
(** ** JavaScript values *)
(* ================================================================== *)

Module Js.

(** A JavaScript string is a sequence of UTF-16 code units; [length] and
    [slice] count code units. *)
Definition code_unit := N.
Definition jsstring := list code_unit.

(** Source literals are ASCII; [lit] turns one into code units. *)
Definition lit (s : string) : jsstring :=
  map N_of_ascii (list_ascii_of_string s).

Fixpoint jsstring_eqb (a b : jsstring) : bool :=
  match a, b with
  | [], [] => true
  | x :: a', y :: b' => N.eqb x y && jsstring_eqb a' b'
  | _, _ => false
  end.

(** [s.startsWith(p)] *)
Fixpoint starts_with (p s : jsstring) : bool :=
  match p, s with
  | [], _ => true
  | x :: p', y :: s' => N.eqb x y && starts_with p' s'
  | _ :: _, [] => false
  end.

(** [s.endsWith(p)] *)
Definition ends_with (p s : jsstring) : bool :=
  starts_with (rev p) (rev s).

(** [s.slice(0, n)] for a non-negative literal [n]. *)
Definition slice0 (n : nat) (s : jsstring) : jsstring := firstn n s.

(** [String(z)] for an integer-valued number. *)
Definition dec (z : Z) : jsstring :=
  lit (NilZero.string_of_int (Z.to_int z)).

(** A decoded JSON document. [JNumber] carries integer-valued numbers
    (safe-integer range, below 1e21 in magnitude), whose decimal
    rendering is [dec]; fractional numbers play no role in the handlers.
    An object is the list of its properties in enumeration order. *)
Inductive json : Type :=
| JNull
| JBool (b : bool)
| JNumber (z : Z)
| JString (s : jsstring)
| JArray (items : list json)
| JObject (props : list (jsstring * json)).

(** A JavaScript value that may be [undefined]. *)
Inductive jsval : Type :=
| Undefined
| Val (j : json).

(** Thrown values are [Error] objects. *)
Record exn : Type := Exn { message : jsstring; stack : jsstring }.

(** ToBoolean *)
Definition truthy_json (j : json) : bool :=
  match j with
  | JNull => false
  | JBool b => b
  | JNumber z => negb (Z.eqb z 0)
  | JString s => match s with [] => false | _ :: _ => true end
  | JArray _ => true
  | JObject _ => true
  end.

Definition truthy (v : jsval) : bool :=
  match v with
  | Undefined => false
  | Val j => truthy_json j
  end.

(** [typeof v === 'number'] *)
Definition is_number (j : json) : bool :=
  match j with JNumber _ => true | _ => false end.

(** [typeof v === 'string'] *)
Definition is_string (j : json) : bool :=
  match j with JString _ => true | _ => false end.

Fixpoint lookup (k : jsstring) (props : list (jsstring * json)) : jsval :=
  match props with
  | [] => Undefined
  | (k', v) :: rest => if jsstring_eqb k k' then Val v else lookup k rest
  end.

(** The property names the server reads. None of them is defined on the
    prototypes of strings, arrays, numbers or booleans, so reading one
    from such a value gives [undefined]. *)
Inductive field : Type :=
| Fprompt | Fchoices | Fmessage | Fcontent | Fcandidates | Fparts | Ftext.

Definition field_name (f : field) : jsstring :=
  match f with
  | Fprompt => lit "prompt"
  | Fchoices => lit "choices"
  | Fmessage => lit "message"
  | Fcontent => lit "content"
  | Fcandidates => lit "candidates"
  | Fparts => lit "parts"
  | Ftext => lit "text"
  end.

(** Reading property [f] of a value that is neither [null] nor
    [undefined]. *)
Definition get_field (f : field) (j : json) : jsval :=
  match j with
  | JObject props => lookup (field_name f) props
  | _ => Undefined
  end.

(** A [TypeError] raised by the engine; the stack is abbreviated to its
    first line. *)
Definition type_error (msg : jsstring) : exn :=
  Exn msg (lit "TypeError: " ++ msg).

(** [v.f]: throws a [TypeError] on [null] and [undefined]. *)
Definition member (f : field) (v : jsval) : exn + jsval :=
  match v with
  | Undefined =>
      inl (type_error (lit "Cannot read properties of undefined (reading '"
                         ++ field_name f ++ lit "')"))
  | Val JNull =>
      inl (type_error (lit "Cannot read properties of null (reading '"
                         ++ field_name f ++ lit "')"))
  | Val j => inr (get_field f j)
  end.

(** [v?.f] *)
Definition opt_member (f : field) (v : jsval) : jsval :=
  match v with
  | Undefined => Undefined
  | Val JNull => Undefined
  | Val j => get_field f j
  end.

(** [v?.[0]] *)
Definition opt_index0 (v : jsval) : jsval :=
  match v with
  | Undefined => Undefined
  | Val JNull => Undefined
  | Val (JArray items) =>
      match items with [] => Undefined | x :: _ => Val x end
  | Val (JString s) =>
      match s with [] => Undefined | c :: _ => Val (JString [c]) end
  | Val (JObject props) => lookup (lit "0") props
  | Val _ => Undefined
  end.

(** [a || b] with [b] a defined value. *)
Definition or_else (a : jsval) (b : json) : json :=
  match a with
  | Undefined => b
  | Val j => if truthy_json j then j else b
  end.

(** *** [JSON.stringify (v, null, 2)] *)

Definition hex_digit (n : N) : code_unit :=
  if N.ltb n 10 then (48 + n)%N else (87 + n)%N.

(** [\uXXXX] with lower-case hexadecimal digits. *)
Definition unicode_escape (c : code_unit) : jsstring :=
  lit "\u" ++ [hex_digit (N.land (N.shiftr c 12) 15);
               hex_digit (N.land (N.shiftr c 8) 15);
               hex_digit (N.land (N.shiftr c 4) 15);
               hex_digit (N.land c 15)].

Definition is_high_surrogate (c : code_unit) : bool :=
  N.leb 55296 c && N.leb c 56319.
Definition is_low_surrogate (c : code_unit) : bool :=
  N.leb 56320 c && N.leb c 57343.

Definition newline : jsstring := [10%N].

(** The body of QuoteJSONString: short escapes, [\u00XX] for the other
    control characters, [\uXXXX] for a surrogate that is not part of a
    pair. *)
Fixpoint escape (s : jsstring) : jsstring :=
  match s with
  | [] => []
  | c :: rest =>
      if N.eqb c 8 then lit "\b" ++ escape rest
      else if N.eqb c 9 then lit "\t" ++ escape rest
      else if N.eqb c 10 then lit "\n" ++ escape rest
      else if N.eqb c 12 then lit "\f" ++ escape rest
      else if N.eqb c 13 then lit "\r" ++ escape rest
      else if N.eqb c 34 then [92; 34]%N ++ escape rest
      else if N.eqb c 92 then lit "\\" ++ escape rest
      else if N.ltb c 32 then unicode_escape c ++ escape rest
      else if is_high_surrogate c then
        match rest with
        | d :: rest' =>
            if is_low_surrogate d then c :: d :: escape rest'
            else unicode_escape c ++ escape rest
        | [] => unicode_escape c
        end
      else if is_low_surrogate c then unicode_escape c ++ escape rest
      else c :: escape rest
  end.

Definition quote (s : jsstring) : jsstring := [34%N] ++ escape s ++ [34%N].

Fixpoint join (sep : jsstring) (parts : list jsstring) : jsstring :=
  match parts with
  | [] => []
  | [x] => x
  | x :: rest => x ++ sep ++ join sep rest
  end.

(** SerializeJSONProperty at current indentation [ind], with a gap of
    two spaces. *)
Fixpoint stringify_at (ind : jsstring) (j : json) : jsstring :=
  match j with
  | JNull => lit "null"
  | JBool true => lit "true"
  | JBool false => lit "false"
  | JNumber z => dec z
  | JString s => quote s
  | JArray [] => lit "[]"
  | JArray items =>
      let ind' := ind ++ lit "  " in
      lit "[" ++ newline ++ ind'
        ++ join (lit "," ++ newline ++ ind') (map (stringify_at ind') items)
        ++ newline ++ ind ++ lit "]"
  | JObject [] => lit "{}"
  | JObject props =>
      let ind' := ind ++ lit "  " in
      lit "{" ++ newline ++ ind'
        ++ join (lit "," ++ newline ++ ind')
             (map (fun kv => quote (fst kv) ++ lit ": "
                               ++ stringify_at ind' (snd kv)) props)
        ++ newline ++ ind ++ lit "}"
  end.

Definition stringify (j : json) : jsstring := stringify_at [] j.

(** *** ToString, as a template literal applies it *)

Fixpoint to_string (j : json) : jsstring :=
  match j with
  | JNull => lit "null"
  | JBool true => lit "true"
  | JBool false => lit "false"
  | JNumber z => dec z
  | JString s => s
  | JArray items =>
      join (lit ",")
        (map (fun x => match x with JNull => [] | _ => to_string x end) items)
  | JObject _ => lit "[object Object]"
  end.

(** [s.toUpperCase()] on the ASCII letters; the server applies it to its
    own four ASCII keys only. *)
Definition to_upper_case (s : jsstring) : jsstring :=
  map (fun c => if N.leb 97 c && N.leb c 122 then (c - 32)%N else c) s.

(** *** [Buffer.from(bytes).toString('base64')] *)

Definition b64_alphabet : jsstring :=
  lit "ABCDEFGHIJKLMNOPQRSTUVWXYZabcdefghijklmnopqrstuvwxyz0123456789+/".

Definition b64_digit (n : N) : code_unit := nth (N.to_nat n) b64_alphabet 0%N.

Definition b64_pad : code_unit := 61%N.

Fixpoint base64 (bs : list Byte.byte) : jsstring :=
  match bs with
  | [] => []
  | [a] =>
      let x := Byte.to_N a in
      [b64_digit (N.shiftr x 2);
       b64_digit (N.shiftl (N.land x 3) 4);
       b64_pad; b64_pad]
  | [a; b] =>
      let x := Byte.to_N a in
      let y := Byte.to_N b in
      [b64_digit (N.shiftr x 2);
       b64_digit (N.lor (N.shiftl (N.land x 3) 4) (N.shiftr y 4));
       b64_digit (N.shiftl (N.land y 15) 2);
       b64_pad]
  | a :: b :: c :: rest =>
      let x := Byte.to_N a in
      let y := Byte.to_N b in
      let z := Byte.to_N c in
      b64_digit (N.shiftr x 2)
        :: b64_digit (N.lor (N.shiftl (N.land x 3) 4) (N.shiftr y 4))
        :: b64_digit (N.lor (N.shiftl (N.land y 15) 2) (N.shiftr z 6))
        :: b64_digit (N.land z 63)
        :: base64 rest
  end.

End Js.

(* ================================================================== *)
(** ** The server *)
(* ================================================================== *)

Module Server.
Import Js.

(** The four providers, in the order of their blocks in the handler. *)
Inductive provider : Type := Chatgpt | Gemini | Claude | Perplexity.

Definition all_providers : list provider :=
  [Chatgpt; Gemini; Claude; Perplexity].

(** The property of [results] a provider's block assigns. *)
Definition key (p : provider) : jsstring :=
  match p with
  | Chatgpt => lit "chatgpt"
  | Gemini => lit "gemini"
  | Claude => lit "claude"
  | Perplexity => lit "perplexity"
  end.

(** [process.env]: a variable is unset or holds a string. *)
Record environment : Type := Env {
  OPENAI_API_KEY : option jsstring;
  GEMINI_API_KEY : option jsstring;
  CLAUDE_API_KEY : option jsstring;
  PERPLEXITY_API_KEY : option jsstring;
  PORT : option jsstring
}.

Definition env_value (x : option jsstring) : jsval :=
  match x with
  | None => Undefined
  | Some s => Val (JString s)
  end.

Definition credential (e : environment) (p : provider) : option jsstring :=
  match p with
  | Chatgpt => OPENAI_API_KEY e
  | Gemini => GEMINI_API_KEY e
  | Claude => CLAUDE_API_KEY e
  | Perplexity => PERPLEXITY_API_KEY e
  end.

(** [if (process.env.X_API_KEY)]: the variable is set and not empty. *)
Definition configured (e : environment) (p : provider) : bool :=
  truthy (env_value (credential e p)).

(** What [fetch] is called with. [payload] is the object handed to
    [JSON.stringify] for the request body. *)
Record http_request : Type := Request {
  url : jsstring;
  headers : list (jsstring * jsstring);
  payload : json
}.

Definition user_message (prompt : json) : json :=
  JArray [JObject [(lit "role", JString (lit "user"));
                   (lit "content", prompt)]].

Definition request_for (p : provider) (api_key : jsstring) (prompt : json)
  : http_request :=
  match p with
  | Chatgpt =>
      Request (lit "https://api.openai.com/v1/chat/completions")
        [(lit "Content-Type", lit "application/json");
         (lit "Authorization", lit "Bearer " ++ api_key)]
        (JObject [(lit "model", JString (lit "gpt-4o-mini"));
                  (lit "messages", user_message prompt);
                  (lit "max_tokens", JNumber 800)])
  | Gemini =>
      Request (lit "https://generativelanguage.googleapis.com/v1beta/models/gemini-pro:generateContent?key=" ++ api_key)
        [(lit "Content-Type", lit "application/json")]
        (JObject [(lit "contents",
                   JArray [JObject [(lit "parts",
                     JArray [JObject [(lit "text", prompt)]])]])])
  | Claude =>
      Request (lit "https://api.anthropic.com/v1/messages")
        [(lit "Content-Type", lit "application/json");
         (lit "x-api-key", api_key);
         (lit "anthropic-version", lit "2023-06-01")]
        (JObject [(lit "model", JString (lit "claude-3-haiku-20240307"));
                  (lit "max_tokens", JNumber 1024);
                  (lit "messages", user_message prompt)])
  | Perplexity =>
      Request (lit "https://api.perplexity.ai/chat/completions")
        [(lit "Authorization", lit "Bearer " ++ api_key);
         (lit "Content-Type", lit "application/json")]
        (JObject [(lit "model", JString (lit "pplx-70b-online"));
                  (lit "messages", user_message prompt);
                  (lit "max_tokens", JNumber 800)])
  end.

(** How a call to a provider ends: [fetch] rejects (network failure), or
    it resolves to a response with some status whose [json()] rejects
    (the body is not JSON) or resolves to the decoded body. The handler
    never reads the status. The source sets no timeout: a call that
    never settles keeps the handler suspended for ever. Such a call has
    no outcome here, so everything below is about requests whose calls
    settle, and says what the handler does, not that it finishes. *)
Inductive fetch_outcome : Type :=
| Rejected (e : exn)
| Responded (status : Z) (body : exn + json).

(** *** Slides *)

(** A text block and the options [addText] receives (the geometry
    [x, y, w, h] and [wrap] are left out). *)
Record text_block : Type := TextBlock {
  text : jsstring;
  fontSize : Z;
  bold : bool;
  color : jsstring;
  align : option jsstring;
  fontFace : option jsstring
}.

Record slide : Type := Slide {
  background : jsstring;
  blocks : list text_block
}.

Record presentation : Type := Presentation {
  title : jsstring;
  subject : json;
  creator : jsstring;
  slides : list slide
}.

(** *** The world a request runs in *)

Record world : Type := World {
  env : environment;
  upstream : provider -> http_request -> fetch_outcome;
  (** [pres.write ({ outputType: 'arraybuffer' })] of the rendering
      library: the document's bytes, or a rejection. *)
  write : presentation -> exn + list Byte.byte;
  (** [new Date().getTime()] *)
  now : Z
}.

(** What a handler does that can be seen from outside, in order. *)
Inductive event : Type :=
| EvFetch (p : provider) (req : http_request)
| EvSettled (p : provider)
| EvNewPresentation
| EvAddSlide
| EvWrite (pres : presentation).

Definition is_fetch (ev : event) : bool :=
  match ev with EvFetch _ _ => true | _ => false end.

Definition is_call_event (ev : event) : bool :=
  match ev with EvFetch _ _ | EvSettled _ => true | _ => false end.

(** All calls of a trace are in flight together: none is issued after
    some call has settled. *)
Fixpoint launched_together (t : list event) : bool :=
  match t with
  | [] => true
  | EvSettled _ :: rest => negb (existsb is_fetch rest)
  | _ :: rest => launched_together rest
  end.

(** How a handler ends: it sends a status and a JSON body, or an
    exception escapes it and the [async] handler's promise rejects with
    [e] without having sent anything. What happens to the request then
    is the framework's business, not this file's. *)
Inductive reply : Type :=
| Reply (status : Z) (body : json)
| NoReply (e : exn).

(** *** A monad of traces and exceptions *)

Definition M (A : Type) : Type := list event * (exn + A).

Definition ret {A} (a : A) : M A := ([], inr a).

Definition throw {A} (e : exn) : M A := ([], inl e).

Definition emit (ev : event) : M unit := ([ev], inr tt).

Definition bind {A B} (m : M A) (k : A -> M B) : M B :=
  match m with
  | (t, inl e) => (t, inl e)
  | (t, inr a) => let (t', r) := k a in (t ++ t', r)
  end.

(** [try { m } catch (e) { h e }] *)
Definition try_catch {A} (m : M A) (h : exn -> M A) : M A :=
  match m with
  | (t, inl e) => let (t', r) := h e in (t ++ t', r)
  | (t, inr a) => (t, inr a)
  end.

Definition lift {A} (r : exn + A) : M A := ([], r).

Definition trace {A} (m : M A) : list event := fst m.

Notation "x <- m ;; k" := (bind m (fun x => k))
  (at level 61, m at next level, right associativity).
Notation "m ;; k" := (bind m (fun _ => k))
  (at level 61, right associativity).

(** *** Provider blocks *)

(** The [results] object: its own properties in insertion order. *)
Definition results_map : Type := list (jsstring * json).

(** [o[k] = v] for the keys the handler assigns (the four provider
    keys: not integer-like, not [__proto__]): an existing property keeps
    its place, a new one goes last. *)
Fixpoint set_prop (k : jsstring) (v : json) (o : results_map) : results_map :=
  match o with
  | [] => [(k, v)]
  | (k', v') :: rest =>
      if jsstring_eqb k k' then (k', v) :: rest
      else (k', v') :: set_prop k v rest
  end.

(** [Object.keys (o)] *)
Definition keys (o : results_map) : list jsstring := map fst o.

(** The success-path extraction of each provider:
    - [j.choices?.[0]?.message?.content]
    - [j.candidates?.[0]?.content?.parts?.[0]?.text]
    - [j.content?.[0]?.text] *)
Definition extract (p : provider) (j : json) : exn + jsval :=
  match p with
  | Chatgpt | Perplexity =>
      match member Fchoices (Val j) with
      | inl e => inl e
      | inr c => inr (opt_member Fcontent (opt_member Fmessage (opt_index0 c)))
      end
  | Gemini =>
      match member Fcandidates (Val j) with
      | inl e => inl e
      | inr c =>
          inr (opt_member Ftext
                 (opt_index0
                    (opt_member Fparts
                       (opt_member Fcontent (opt_index0 c)))))
      end
  | Claude =>
      match member Fcontent (Val j) with
      | inl e => inl e
      | inr c => inr (opt_member Ftext (opt_index0 c))
      end
  end.

(** The credential as it is interpolated into the request; read only
    under [configured]. *)
Definition api_key (e : environment) (p : provider) : jsstring :=
  match credential e p with
  | Some s => s
  | None => lit "undefined"
  end.

(** [await fetch (...)]: the call is issued; a rejection settles it. *)
Definition fetch (w : world) (p : provider) (req : http_request)
  : M (exn + json) :=
  emit (EvFetch p req) ;;
  match upstream w p req with
  | Rejected e => emit (EvSettled p) ;; throw e
  | Responded _ body => ret body
  end.

(** [await r.json ()]: the body has arrived and is decoded, or not. *)
Definition response_json (p : provider) (body : exn + json) : M json :=
  emit (EvSettled p) ;; lift body.

(** The body of a provider's [try]: call, decode, extract, assign. *)
Definition provider_try (w : world) (prompt : json) (p : provider)
    (results : results_map) : M results_map :=
  r <- fetch w p (request_for p (api_key (env w) p) prompt) ;;
  j <- response_json p r ;;
  x <- lift (extract p j) ;;
  ret (set_prop (key p) (or_else x (JString (stringify j))) results).

(** One [if (process.env.X_API_KEY) { try { ... } catch (e) { ... } }]
    block. *)
Definition provider_block (w : world) (prompt : json) (p : provider)
    (results : results_map) : M results_map :=
  if configured (env w) p then
    try_catch
      (provider_try w prompt p results)
      (fun e =>
         ret (set_prop (key p) (JString (lit "Error: " ++ message e)) results))
  else ret results.

(** The four blocks, one after the other, starting from [{}]. *)
Definition collect (w : world) (prompt : json) : M results_map :=
  r <- provider_block w prompt Chatgpt [] ;;
  r <- provider_block w prompt Gemini r ;;
  r <- provider_block w prompt Claude r ;;
  provider_block w prompt Perplexity r.

(** *** Slide assembly *)

(** [prompt.slice (0, n)]: strings and arrays have [slice]; on any
    other truthy value the call is a [TypeError]. *)
Definition slice_prompt (n : nat) (prompt : json) : exn + json :=
  match prompt with
  | JString s => inr (JString (slice0 n s))
  | JArray items => inr (JArray (firstn n items))
  | _ => inl (type_error (lit "prompt.slice is not a function"))
  end.

Definition ellipsis : jsstring := lit "...".

(** [`Prompt: ${prompt.slice(0, 100)}...`] *)
Definition subtitle (head : json) : jsstring :=
  lit "Prompt: " ++ to_string head ++ ellipsis.

Definition title_slide (head : json) : slide :=
  Slide (lit "1F2937")
    [TextBlock (lit "AI Aggregation Results") 48 true (lit "FFFFFF")
       (Some (lit "center")) None;
     TextBlock (subtitle head) 18 false (lit "D1D5DB")
       (Some (lit "center")) (Some (lit "Arial"))].

(** [typeof v === 'string' ? v : JSON.stringify (v, null, 2)] *)
Definition content_of (v : json) : jsstring :=
  match v with
  | JString s => s
  | _ => stringify v
  end.

(** [content.length > 3500 ? content.slice (0, 3500) + '\n...' : content] *)
Definition truncated (content : jsstring) : jsstring :=
  if Nat.ltb 3500 (List.length content)
  then slice0 3500 content ++ newline ++ ellipsis
  else content.

Definition content_slide (k : jsstring) (v : json) : slide :=
  Slide (lit "FFFFFF")
    [TextBlock (to_upper_case k) 32 true (lit "1F2937") None None;
     TextBlock (truncated (content_of v)) 11 false (lit "374151")
       None (Some (lit "Courier New"))].

(** [Object.entries (results).forEach (([k, v]) => { ... })] *)
Fixpoint content_slides (entries : results_map) : M (list slide) :=
  match entries with
  | [] => ret []
  | (k, v) :: rest =>
      emit EvAddSlide ;;
      more <- content_slides rest ;;
      ret (content_slide k v :: more)
  end.

(** *** The handlers *)

(** The two variants of the server file: [Plain] (no logging) and
    [Logging]. The log lines themselves are not modelled, only the one
    that can throw. *)
Inductive variant : Type := Plain | Logging.

Definition error_body (msg : jsstring) : json :=
  JObject [(lit "error", JString msg)].

Definition no_keys_message (v : variant) : jsstring :=
  match v with
  | Plain => lit "No API keys configured"
  | Logging => lit "No API keys configured. Please set at least one of: OPENAI_API_KEY, GEMINI_API_KEY, CLAUDE_API_KEY, PERPLEXITY_API_KEY"
  end.

(** The body of the outer [catch (err)]. *)
Definition failure_body (v : variant) (err : exn) : json :=
  let msg := or_else (Val (JString (message err)))
                     (JString (lit "internal error")) in
  match v with
  | Plain => JObject [(lit "error", msg)]
  | Logging => JObject [(lit "error", msg); (lit "stack", JString (stack err))]
  end.

Definition file_name (t : Z) : jsstring :=
  lit "ai-aggregation-" ++ dec t ++ lit ".pptx".

(** [{ ok: true, pptx: base64, fileName: `ai-aggregation-${...}.pptx` }] *)
Definition envelope (buffer : list Byte.byte) (t : Z) : json :=
  JObject [(lit "ok", JBool true);
           (lit "pptx", JString (base64 buffer));
           (lit "fileName", JString (file_name t))].

(** The body of the outer [try]. *)
Definition aggregate_try (v : variant) (w : world) (prompt : json) : M reply :=
  results <- collect w prompt ;;
  if Nat.eqb (List.length (keys results)) 0 then
    ret (Reply 400 (error_body (no_keys_message v)))
  else
    emit EvNewPresentation ;;
    emit EvAddSlide ;;
    head <- lift (slice_prompt 100 prompt) ;;
    content <- content_slides results ;;
    let pres := Presentation (lit "AI Aggregation Results") prompt
                  (lit "Telecom Prompt Generator")
                  (title_slide head :: content) in
    emit (EvWrite pres) ;;
    buffer <- lift (write w pres) ;;
    ret (Reply 200 (envelope buffer (now w))).

(** The handler once the prompt is known to be truthy. In the logging
    variant [prompt.slice (0, 50)] is logged before the [try]. *)
Definition aggregate_main (v : variant) (w : world) (prompt : json)
  : list event * reply :=
  match (match v with Plain => inr prompt | Logging => slice_prompt 50 prompt end) with
  | inl e => ([], NoReply e)
  | inr _ =>
      match aggregate_try v w prompt with
      | (t, inr r) => (t, r)
      | (t, inl err) => (t, Reply 500 (failure_body v err))
      end
  end.

Definition prompt_required : reply :=
  Reply 400 (error_body (lit "prompt required")).

(** [app.post ('/api/aggregate', ...)] on the parsed request body. *)
Definition aggregate (v : variant) (w : world) (body : json)
  : list event * reply :=
  match member Fprompt (Val body) with
  | inl e => ([], NoReply e)
  | inr Undefined => ([], prompt_required)
  | inr (Val prompt) =>
      if negb (truthy_json prompt) then ([], prompt_required)
      else aggregate_main v w prompt
  end.

(** [app.get ('/health', ...)] *)
Definition health (w : world) : list event * reply :=
  ([], Reply 200
         (JObject [(lit "status", JString (lit "ok"));
                   (lit "port", or_else (env_value (PORT (env w)))
                                        (JNumber 3001))])).

(** *** The CORS middleware and the order of the middlewares *)

Definition allowedOrigins : list jsstring :=
  [lit "http://localhost:5173";
   lit "http://localhost:3001";
   lit "http://localhost:3000"].

(** The response headers set so far, by name. *)
Definition header_list : Type := list (jsstring * jsstring).

(** [res.setHeader (name, value)]: a header already set is replaced. *)
Fixpoint set_header (name value : jsstring) (hs : header_list) : header_list :=
  match hs with
  | [] => [(name, value)]
  | (n, x) :: rest =>
      if jsstring_eqb name n then (n, value) :: rest
      else (n, x) :: set_header name value rest
  end.

(** [res.getHeader (name)] *)
Fixpoint get_header (name : jsstring) (hs : header_list) : option jsstring :=
  match hs with
  | [] => None
  | (n, x) :: rest => if jsstring_eqb name n then Some x else get_header name rest
  end.

(** What the middleware reads of the request: [req.method] and
    [req.headers.origin], which may be missing. *)
Record incoming : Type := Incoming {
  method : jsstring;
  origin : option jsstring
}.

(** A middleware ends the request with [res.sendStatus (code)] or hands
    it on with [next ()]. *)
Inductive passed : Type :=
| SendStatus (code : Z)
| Next.

(** The first [app.use]. [allowedOrigins.includes (undefined)] is
    false. *)
Definition cors (req : incoming) (hs : header_list) : header_list * passed :=
  let hs1 :=
    match origin req with
    | Some o =>
        if existsb (jsstring_eqb o) allowedOrigins
        then set_header (lit "Access-Control-Allow-Origin") o hs
        else hs
    | None => hs
    end in
  let hs2 := set_header (lit "Access-Control-Allow-Methods")
               (lit "GET, POST, PUT, DELETE, OPTIONS") hs1 in
  let hs3 := set_header (lit "Access-Control-Allow-Headers")
               (lit "Content-Type, Authorization") hs2 in
  let hs4 := set_header (lit "Access-Control-Allow-Credentials")
               (lit "true") hs3 in
  if jsstring_eqb (method req) (lit "OPTIONS")
  then (hs4, SendStatus 204)
  else (hs4, Next).

(** The handler the router picks for a request, with the body the JSON
    body parser hands to it. *)
Inductive target : Type :=
| ToHealth
| ToAggregate (body : json)
| Unrouted.

(** What a request ends with: a handler's reply, a bare status sent by
    a middleware, or nothing from this file (no route matched). *)
Inductive outcome : Type :=
| Handled (r : reply)
| StatusOnly (code : Z)
| NotHandled.

(** The application: the CORS middleware first, then the routes. The
    header list holds the headers this file sets, starting from none. *)
Definition serve (v : variant) (w : world) (req : incoming) (to : target)
  : header_list * list event * outcome :=
  match cors req [] with
  | (hs, SendStatus code) => (hs, [], StatusOnly code)
  | (hs, Next) =>
      match to with
      | ToHealth => let (t, r) := health w in (hs, t, Handled r)
      | ToAggregate body => let (t, r) := aggregate v w body in (hs, t, Handled r)
      | Unrouted => (hs, [], NotHandled)
      end
  end.

End Server.

(* ================================================================== *)
(** ** The build configuration *)
(* ================================================================== *)

Module ViteConfig.
Import Js.

(** The part of the configuration object the build reads: [base] and
    the text that replaces [process.env.API_KEY] in the bundle, when one
    is defined. *)
Record config : Type := Config {
  base : jsstring;
  define_api_key : option jsstring
}.

(** [a || b || ''] on two variables that are unset or hold a string. *)
Definition first_set (a b : option jsstring) : jsstring :=
  match a with
  | Some (c :: s) => c :: s
  | _ =>
      match b with
      | Some (c :: s) => c :: s
      | _ => []
      end
  end.

(** The configuration that loads the environment: [file_env] is
    [env.API_KEY] as [loadEnv] returns it, [process_env] is
    [process.env.API_KEY]. [JSON.stringify] of a string is its quoted
    form. *)
Definition env_config (file_env process_env : option jsstring) : config :=
  Config (lit "./") (Some (quote (first_set file_env process_env))).

(** The configuration for deployment under the repository's path. *)
Definition pages_config : config :=
  Config (lit "/telecom-prompt-main/") None.

End ViteConfig.

(* ================================================================== *)
(** ** Outcomes, results and decks of a request *)
(* ================================================================== *)

Import Js Server.

(** The text a [catch (e)] block records: [`Error: ${e.message}`]. *)
Definition error_text (e : exn) : json :=
  JString (lit "Error: " ++ message e).

(** The exception a provider's [try] block raises, if any: [fetch]
    rejects, [r.json ()] rejects, or the extraction dereferences
    [null]. *)
Definition thrown (p : provider) (o : fetch_outcome) : option exn :=
  match o with
  | Rejected e => Some e
  | Responded _ (inl e) => Some e
  | Responded _ (inr j) =>
      match extract p j with
      | inl e => Some e
      | inr _ => None
      end
  end.

(** The value a provider's block assigns, by outcome of its call. *)
Definition outcome_value (p : provider) (o : fetch_outcome) : json :=
  match o with
  | Rejected e => error_text e
  | Responded _ (inl e) => error_text e
  | Responded _ (inr j) =>
      match extract p j with
      | inl e => error_text e
      | inr x => or_else x (JString (stringify j))
      end
  end.

(** The providers whose block runs, in the order of the blocks. *)
Definition attempted (w : world) : list provider :=
  filter (configured (env w)) all_providers.

Section RequestNotions.

Variable w : world.
Variable prompt : json.

Definition request_of (p : provider) : http_request :=
  request_for p (api_key (env w) p) prompt.

Definition recorded (p : provider) : json :=
  outcome_value p (upstream w p (request_of p)).

(** The calls of one request, as the handler makes them. *)
Definition sequential_calls : list event :=
  flat_map (fun p => [EvFetch p (request_of p); EvSettled p]) (attempted w).

Definition results_of : results_map :=
  map (fun p => (key p, recorded p)) (attempted w).

(** The deck handed to the renderer. *)
Definition deck (head : json) : presentation :=
  Presentation (lit "AI Aggregation Results") prompt
    (lit "Telecom Prompt Generator")
    (title_slide head
       :: map (fun p => content_slide (key p) (recorded p)) (attempted w)).

End RequestNotions.

(** The interface documents [prompt] as a string: the field is absent
    or holds a string. *)
Definition string_prompt (prompt : jsval) : bool :=
  match prompt with
  | Undefined => true
  | Val (JString _) => true
  | Val _ => false
  end.

(* ================================================================== *)
(** ** Sample requests and worlds *)
(* ================================================================== *)

(** [{ "prompt": s }] *)
Definition body_with_prompt (s : string) : json :=
  JObject [(lit "prompt", JString (lit s))].

(** A renderer that returns the four bytes of a zip header. *)
Definition zip_header_renderer (_ : presentation) : exn + list Byte.byte :=
  inr [Byte.x50; Byte.x4b; Byte.x03; Byte.x04].

Definition chat_answer (s : jsstring) : json :=
  JObject [(lit "choices",
            JArray [JObject [(lit "message",
                              JObject [(lit "content", JString s)])]])].

Definition invalid_key_body : json :=
  JObject [(lit "error",
            JObject [(lit "message", JString (lit "Incorrect API key provided"));
                     (lit "code", JString (lit "invalid_api_key"))])].

Definition fetch_failed : exn :=
  Exn (lit "fetch failed") (lit "TypeError: fetch failed").

(** Only the first provider is configured and it answers. *)
Definition world_single : world :=
  World (Env (Some (lit "sk-test")) None None None None)
        (fun _ _ => Responded 200 (inr (chat_answer (lit "5G is..."))))
        zip_header_renderer
        1700000000000.

(** Two providers are configured: the first answers 401 with a JSON
    error body, the second is unreachable. *)
Definition world_failing : world :=
  World (Env (Some (lit "sk-bad")) (Some (lit "g-key")) None None
             (Some (lit "8080")))
        (fun p _ =>
           match p with
           | Chatgpt => Responded 401 (inr invalid_key_body)
           | _ => Rejected fetch_failed
           end)
        zip_header_renderer
        1700000000000.

(** No credential at all. *)
Definition world_unconfigured : world :=
  World (Env None None None None None)
        (fun _ _ => Rejected fetch_failed)
        zip_header_renderer
        1700000000000.

(** The first provider answers with an empty completion. *)
Definition world_empty_answer : world :=
  World (Env (Some (lit "sk-test")) None None None None)
        (fun _ _ => Responded 200 (inr (chat_answer [])))
        zip_header_renderer
        1700000000000.

(** *** Readings of traces and decks *)

Definition same_provider (p q : provider) : bool :=
  match p, q with
  | Chatgpt, Chatgpt | Gemini, Gemini
  | Claude, Claude | Perplexity, Perplexity => true
  | _, _ => false
  end.

(** How many times provider [p] is called in a trace. *)
Definition calls_to (p : provider) (t : list event) : nat :=
  List.length
    (filter (fun ev => match ev with
                       | EvFetch q _ => same_provider p q
                       | _ => false
                       end) t).

(** How many times the renderer is invoked in a trace. *)
Definition renderings (t : list event) : nat :=
  List.length
    (filter (fun ev => match ev with EvWrite _ => true | _ => false end) t).

(** The text of a slide's first block. *)
Definition heading_of (sl : slide) : jsstring :=
  match blocks sl with
  | b :: _ => text b
  | [] => []
  end.

(** The text of a slide's second block. *)
Definition body_of (sl : slide) : jsstring :=
  match blocks sl with
  | _ :: b :: _ => text b
  | _ => []
  end.

(** The provider names as the content slides show them. *)
Definition shown_name (p : provider) : jsstring :=
  match p with
  | Chatgpt => lit "CHATGPT"
  | Gemini => lit "GEMINI"
  | Claude => lit "CLAUDE"
  | Perplexity => lit "PERPLEXITY"
  end.

(** The three parts of what [serve] returns. *)
Definition headers_of (x : header_list * list event * outcome) : header_list :=
  fst (fst x).
Definition trace_of (x : header_list * list event * outcome) : list event :=
  snd (fst x).
Definition outcome_of (x : header_list * list event * outcome) : outcome :=
  snd x.

(** Values on which [slice] can be called: strings and arrays. *)
Definition has_slice (j : json) : bool :=
  match j with
  | JString _ | JArray _ => true
  | _ => false
  end.

(** A prompt of 150 code units. *)
Definition long_prompt : jsstring := repeat 97%N 150.

(** An array prompt of 100 one-letter strings. *)
Definition array_prompt : json := JArray (repeat (JString (lit "a")) 100).

(** *** Readings of a request sent to a provider *)

(** [v.name] where [v] may be anything: the property of an object,
    [undefined] otherwise. *)
Definition prop (name : string) (v : jsval) : jsval :=
  match v with
  | Val (JObject props) => lookup (lit name) props
  | _ => Undefined
  end.

(** Where a provider's API reads the user's text in the request body:
    [messages[0].content] for the chat-style APIs,
    [contents[0].parts[0].text] for Gemini. *)
Definition sent_prompt (p : provider) (body : json) : jsval :=
  match p with
  | Gemini =>
      prop "text"
        (opt_index0 (prop "parts" (opt_index0 (prop "contents" (Val body)))))
  | Chatgpt | Claude | Perplexity =>
      prop "content" (opt_index0 (prop "messages" (Val body)))
  end.

(** The renderer rejects with an error whose message is empty. *)
Definition world_render_fails : world :=
  World (Env (Some (lit "sk-test")) None None None None)
        (fun _ _ => Responded 200 (inr (chat_answer (lit "5G is..."))))
        (fun _ => inl (Exn [] (lit "Error at write")))
        1700000000000.

(* ================================================================== *)
(** ** Closed forms of the handlers *)
(* ================================================================== *)

Section Request.

Variable w : world.
Variable prompt : json.

Lemma bind_value {A B} (t : list event) (a : A) (k : A -> M B) :
  bind (t, inr a) k = (t ++ fst (k a), snd (k a)).
Proof. unfold bind. destruct (k a). reflexivity. Qed.

Lemma provider_block_eq (p : provider) (rs : results_map) :
  provider_block w prompt p rs =
  if configured (env w) p
  then ([EvFetch p (request_of w prompt p); EvSettled p],
        inr (set_prop (key p) (recorded w prompt p) rs))
  else ([], inr rs).
Proof.
  unfold provider_block, provider_try, recorded, request_of, fetch,
    response_json.
  destruct (configured (env w) p); [|reflexivity].
  destruct (upstream w p (request_for p (api_key (env w) p) prompt))
    as [e | st [e | j]]; simpl; try reflexivity.
  destruct (extract p j) as [e | x]; reflexivity.
Qed.


Lemma collect_eq :
  collect w prompt = (sequential_calls w prompt, inr (results_of w prompt)).
Proof.
  unfold collect, sequential_calls, results_of, attempted, all_providers.
  cbn [filter].
  destruct (configured (env w) Chatgpt) eqn:E1,
           (configured (env w) Gemini) eqn:E2,
           (configured (env w) Claude) eqn:E3,
           (configured (env w) Perplexity) eqn:E4;
    cbn [flat_map map app];
    rewrite provider_block_eq, E1, bind_value; cbv beta;
    rewrite provider_block_eq, E2, bind_value; cbv beta;
    rewrite provider_block_eq, E3, bind_value; cbv beta;
    rewrite provider_block_eq, E4;
    cbn [fst snd app];
    generalize (recorded w prompt Chatgpt) (recorded w prompt Gemini)
               (recorded w prompt Claude) (recorded w prompt Perplexity);
    generalize (request_of w prompt Chatgpt) (request_of w prompt Gemini)
               (request_of w prompt Claude) (request_of w prompt Perplexity);
    intros q1 q2 q3 q4 r1 r2 r3 r4; clear;
    vm_compute; reflexivity.
Qed.

Lemma content_slides_eq (rs : results_map) :
  content_slides rs =
  (repeat EvAddSlide (List.length rs),
   inr (map (fun kv => content_slide (fst kv) (snd kv)) rs)).
Proof.
  induction rs as [|[k x] rs IH]; [reflexivity|].
  simpl. unfold bind at 1. simpl. rewrite IH. simpl.
  rewrite app_nil_r. reflexivity.
Qed.

Lemma aggregate_try_eq (v : variant) :
  aggregate_try v w prompt =
  match attempted w with
  | [] => (sequential_calls w prompt,
           inr (Reply 400 (error_body (no_keys_message v))))
  | _ :: _ =>
      match slice_prompt 100 prompt with
      | inl e =>
          (sequential_calls w prompt ++ [EvNewPresentation; EvAddSlide], inl e)
      | inr head =>
          (sequential_calls w prompt
             ++ [EvNewPresentation; EvAddSlide]
             ++ repeat EvAddSlide (List.length (attempted w))
             ++ [EvWrite (deck w prompt head)],
           match write w (deck w prompt head) with
           | inl e => inl e
           | inr buffer => inr (Reply 200 (envelope buffer (now w)))
           end)
      end
  end.
Proof.
  unfold aggregate_try. rewrite collect_eq, bind_value. cbv beta.
  unfold keys, results_of. rewrite !length_map.
  destruct (attempted w) as [|p ps] eqn:E.
  - cbn [List.length Nat.eqb ret fst snd]. rewrite app_nil_r. reflexivity.
  - cbn [List.length Nat.eqb]. unfold emit, lift.
    rewrite !bind_value. cbv beta.
    destruct (slice_prompt 100 prompt) as [e | head] eqn:S.
    + cbn [bind fst snd app]. reflexivity.
    + rewrite bind_value. cbv beta.
      rewrite content_slides_eq, bind_value. cbv beta.
      rewrite bind_value. cbv beta.
      rewrite !length_map, map_map. cbn [fst snd].
      unfold deck. rewrite E.
      destruct (write w _) as [e | buffer]; cbn [bind ret fst snd app];
        rewrite ?app_nil_r; reflexivity.
Qed.

End Request.

(** *** Facts about keys and the result mapping *)

Lemma key_injective (p q : provider) : key p = key q -> p = q.
Proof. destruct p, q; intros H; try reflexivity; vm_compute in H; discriminate. Qed.

Lemma attempted_iff (w : world) (p : provider) :
  In p (attempted w) <-> configured (env w) p = true.
Proof.
  unfold attempted. rewrite filter_In. split.
  - intros [_ H]. exact H.
  - intros H. split; [|exact H]. destruct p; simpl; tauto.
Qed.

Lemma keys_results (w : world) (prompt : json) :
  keys (results_of w prompt) = map key (attempted w).
Proof. unfold keys, results_of. rewrite map_map. reflexivity. Qed.

Lemma lookup_results (w : world) (prompt : json) (p : provider) :
  lookup (key p) (results_of w prompt) =
  if configured (env w) p then Val (recorded w prompt p) else Undefined.
Proof.
  unfold results_of, attempted, all_providers. cbn [filter].
  destruct p;
    destruct (configured (env w) Chatgpt), (configured (env w) Gemini),
             (configured (env w) Claude), (configured (env w) Perplexity);
    cbn [map];
    generalize (recorded w prompt Chatgpt) (recorded w prompt Gemini)
               (recorded w prompt Claude) (recorded w prompt Perplexity);
    intros r1 r2 r3 r4; clear;
    vm_compute; reflexivity.
Qed.

Lemma starts_with_app (p s : jsstring) : starts_with p (p ++ s) = true.
Proof.
  induction p as [|c p IH]; [reflexivity|].
  simpl. rewrite N.eqb_refl. exact IH.
Qed.

Lemma ends_with_app (p s : jsstring) : ends_with p (s ++ p) = true.
Proof. unfold ends_with. rewrite rev_app_distr. apply starts_with_app. Qed.

(** *** The aggregate handler on a string prompt *)

Lemma aggregate_string (v : variant) (w : world) (body : json) (s : jsstring) :
  member Fprompt (Val body) = inr (Val (JString s)) ->
  aggregate v w body =
  match s with
  | [] => ([], prompt_required)
  | _ :: _ =>
      match attempted w with
      | [] => ([], Reply 400 (error_body (no_keys_message v)))
      | _ :: _ =>
          let pres := deck w (JString s) (JString (slice0 100 s)) in
          (sequential_calls w (JString s)
             ++ [EvNewPresentation; EvAddSlide]
             ++ repeat EvAddSlide (List.length (attempted w))
             ++ [EvWrite pres],
           match write w pres with
           | inl e => Reply 500 (failure_body v e)
           | inr buffer => Reply 200 (envelope buffer (now w))
           end)
      end
  end.
Proof.
  intros Hm. unfold aggregate. rewrite Hm.
  destruct s as [|c s]; [reflexivity|].
  cbn [truthy_json negb]. unfold aggregate_main.
  assert (Hpre : (match v with
                  | Plain => inr (JString (c :: s))
                  | Logging => slice_prompt 50 (JString (c :: s))
                  end) = inr (match v with
                              | Plain => JString (c :: s)
                              | Logging => JString (slice0 50 (c :: s))
                              end))
    by (destruct v; reflexivity).
  rewrite Hpre. rewrite aggregate_try_eq.
  unfold sequential_calls.
  destruct (attempted w) as [|p ps]; [reflexivity|].
  cbn [slice_prompt]. cbv zeta.
  destruct (write w _); reflexivity.
Qed.

(** *** The aggregate handler on any truthy prompt *)

Lemma slice_prompt_has_slice (n : nat) (p : json) :
  has_slice p = false ->
  slice_prompt n p = inl (type_error (lit "prompt.slice is not a function")).
Proof. destruct p; simpl; intros H; try reflexivity; discriminate H. Qed.

Lemma has_slice_slices (n : nat) (p : json) :
  has_slice p = true -> exists head, slice_prompt n p = inr head.
Proof.
  destruct p; simpl; intros H; try discriminate H; eexists; reflexivity.
Qed.

Lemma aggregate_truthy (v : variant) (w : world) (body p : json) :
  member Fprompt (Val body) = inr (Val p) ->
  truthy_json p = true ->
  aggregate v w body =
  match v, has_slice p with
  | Logging, false =>
      ([], NoReply (type_error (lit "prompt.slice is not a function")))
  | _, _ =>
      match attempted w with
      | [] => ([], Reply 400 (error_body (no_keys_message v)))
      | _ :: _ =>
          match slice_prompt 100 p with
          | inl e =>
              (sequential_calls w p ++ [EvNewPresentation; EvAddSlide],
               Reply 500 (failure_body v e))
          | inr head =>
              (sequential_calls w p
                 ++ [EvNewPresentation; EvAddSlide]
                 ++ repeat EvAddSlide (List.length (attempted w))
                 ++ [EvWrite (deck w p head)],
               match write w (deck w p head) with
               | inl e => Reply 500 (failure_body v e)
               | inr buffer => Reply 200 (envelope buffer (now w))
               end)
          end
      end
  end.
Proof.
  intros Hm Ht. unfold aggregate. rewrite Hm, Ht. cbn [negb].
  unfold aggregate_main.
  assert (Hbody :
    match aggregate_try v w p with
    | (t, inr r) => (t, r)
    | (t, inl err) => (t, Reply 500 (failure_body v err))
    end =
    match attempted w with
    | [] => ([], Reply 400 (error_body (no_keys_message v)))
    | _ :: _ =>
        match slice_prompt 100 p with
        | inl e =>
            (sequential_calls w p ++ [EvNewPresentation; EvAddSlide],
             Reply 500 (failure_body v e))
        | inr head =>
            (sequential_calls w p
               ++ [EvNewPresentation; EvAddSlide]
               ++ repeat EvAddSlide (List.length (attempted w))
               ++ [EvWrite (deck w p head)],
             match write w (deck w p head) with
             | inl e => Reply 500 (failure_body v e)
             | inr buffer => Reply 200 (envelope buffer (now w))
             end)
        end
    end).
  { rewrite aggregate_try_eq. unfold sequential_calls.
    destruct (attempted w) as [|q qs]; [reflexivity|].
    destruct (slice_prompt 100 p) as [e | head]; [reflexivity|].
    destruct (write w _); reflexivity. }
  destruct v.
  - rewrite Hbody. destruct (has_slice p); reflexivity.
  - destruct (has_slice p) eqn:Hs.
    + destruct (has_slice_slices 50 p Hs) as [h ->]. exact Hbody.
    + rewrite (slice_prompt_has_slice 50 p Hs). reflexivity.
Qed.

(** The rendering event of a request, whatever the type of its prompt,
    carries the deck built from [prompt.slice (0, 100)]. *)
Lemma write_event_of_any_prompt
    (v : variant) (w : world) (body p : json) (pres : presentation) :
  member Fprompt (Val body) = inr (Val p) ->
  In (EvWrite pres) (fst (aggregate v w body)) ->
  exists head, slice_prompt 100 p = inr head /\ pres = deck w p head.
Proof.
  intros Hm Hin.
  destruct (truthy_json p) eqn:Ht.
  - rewrite (aggregate_truthy v w body p Hm Ht) in Hin.
    assert (Hmain :
      In (EvWrite pres)
         (fst (match attempted w with
               | [] => ([], Reply 400 (error_body (no_keys_message v)))
               | _ :: _ =>
                   match slice_prompt 100 p with
                   | inl e =>
                       (sequential_calls w p ++ [EvNewPresentation; EvAddSlide],
                        Reply 500 (failure_body v e))
                   | inr head =>
                       (sequential_calls w p
                          ++ [EvNewPresentation; EvAddSlide]
                          ++ repeat EvAddSlide (List.length (attempted w))
                          ++ [EvWrite (deck w p head)],
                        match write w (deck w p head) with
                        | inl e => Reply 500 (failure_body v e)
                        | inr buffer => Reply 200 (envelope buffer (now w))
                        end)
                   end
               end)) ->
      exists head, slice_prompt 100 p = inr head /\ pres = deck w p head).
    { clear Hin. intros Hin.
      assert (Hseq : ~ In (EvWrite pres) (sequential_calls w p)).
      { unfold sequential_calls. intros H. apply in_flat_map in H.
        destruct H as [q [_ [Hq | [Hq | []]]]]; discriminate Hq. }
      destruct (attempted w) as [|q qs]; [destruct Hin|].
      destruct (slice_prompt 100 p) as [e | head]; cbn [fst] in Hin;
        rewrite !in_app_iff in Hin.
      - destruct Hin as [H | [H | [H | []]]];
          [contradiction | discriminate H | discriminate H].
      - destruct Hin as [H | [H | [H | H]]].
        + contradiction.
        + destruct H as [H | [H | []]]; discriminate H.
        + apply repeat_spec in H. discriminate H.
        + destruct H as [H | []]. inversion H. exists head.
          split; reflexivity. }
    destruct v; [exact (Hmain Hin)|].
    destruct (has_slice p); [exact (Hmain Hin) | destruct Hin].
  - unfold aggregate in Hin. rewrite Hm, Ht in Hin. destruct Hin.
Qed.

(* ================================================================== *)
(** ** The contract *)
(* ================================================================== *)

(** *** Result mapping *)

(** C2. Whatever the providers answer, the four blocks end normally and
    the keys of the result mapping are exactly the keys of the
    configured providers (in block order): a key is present if and only
    if its provider's credential is configured. *)
Theorem result_keys_are_the_configured_providers (w : world) (prompt : json) :
  exists t rs,
    collect w prompt = (t, inr rs) /\
    keys rs = map key (filter (configured (env w)) all_providers) /\
    (forall p, In (key p) (keys rs) <-> configured (env w) p = true).
Proof.
  exists (sequential_calls w prompt), (results_of w prompt).
  split; [apply collect_eq|]. split; [apply keys_results|].
  intros p. rewrite keys_results, <- attempted_iff. split.
  - intros H. apply in_map_iff in H. destruct H as [q [Hk Hq]].
    apply key_injective in Hk. subst q. exact Hq.
  - apply in_map.
Qed.

(** C10. When the call and the decoding succeed and the extraction path
    leads to a value that is present but falsy (the empty string, [0],
    [false], [null]), the recorded value is the pretty-printed decoded
    body. *)
Theorem falsy_extraction_records_the_raw_body
    (w : world) (prompt : json) (p : provider)
    (status : Z) (j x : json) :
  configured (env w) p = true ->
  upstream w p (request_for p (api_key (env w) p) prompt)
    = Responded status (inr j) ->
  extract p j = inr (Val x) ->
  truthy_json x = false ->
  exists t rs,
    collect w prompt = (t, inr rs) /\
    lookup (key p) rs = Val (JString (stringify j)).
Proof.
  intros Hc Hu Hx Hf.
  exists (sequential_calls w prompt), (results_of w prompt).
  split; [apply collect_eq|].
  rewrite lookup_results, Hc. unfold recorded, request_of.
  rewrite Hu. simpl. rewrite Hx. simpl. rewrite Hf. reflexivity.
Qed.

Lemma falsy_extraction_records_the_raw_body_witness :
  exists t rs,
    collect world_empty_answer (JString (lit "Explain 5G")) = (t, inr rs) /\
    lookup (key Chatgpt) rs = Val (JString (stringify (chat_answer []))).
Proof.
  apply (falsy_extraction_records_the_raw_body
           world_empty_answer (JString (lit "Explain 5G")) Chatgpt
           200 (chat_answer []) (JString [])); reflexivity.
Defined.

(** *** Validation *)

Lemma aggregate_falsy (v : variant) (w : world) (body : json) (prompt : jsval) :
  member Fprompt (Val body) = inr prompt ->
  truthy prompt = false ->
  aggregate v w body = ([], prompt_required).
Proof.
  intros Hm Hf. unfold aggregate. rewrite Hm.
  destruct prompt as [|p]; [reflexivity|].
  simpl in Hf. rewrite Hf. reflexivity.
Qed.

(** C5. When the body has no [prompt] field or its [prompt] is falsy,
    the handler answers [400 { error: "prompt required" }] and nothing
    else happens: no provider is called. *)
Theorem missing_prompt_is_rejected
    (v : variant) (w : world) (body : json) (prompt : jsval) :
  member Fprompt (Val body) = inr prompt ->
  truthy prompt = false ->
  aggregate v w body =
    ([], Reply 400 (JObject [(lit "error", JString (lit "prompt required"))])).
Proof. intros Hm Hf. apply (aggregate_falsy v w body prompt Hm Hf). Qed.

Lemma missing_prompt_is_rejected_witness :
  aggregate Logging world_single (JObject []) =
    ([], Reply 400 (JObject [(lit "error", JString (lit "prompt required"))]))
  /\
  aggregate Plain world_single (JObject [(lit "prompt", JString [])]) =
    ([], Reply 400 (JObject [(lit "error", JString (lit "prompt required"))])).
Proof.
  split.
  - apply (missing_prompt_is_rejected Logging world_single (JObject [])
             Undefined); reflexivity.
  - apply (missing_prompt_is_rejected Plain world_single
             (JObject [(lit "prompt", JString [])]) (Val (JString [])));
      reflexivity.
Defined.

(** With no credential configured, a request whose prompt is absent or
    a string is answered with status 400 and an error body, and the
    trace is empty: no network call, no presentation, no slide, no
    rendering. *)
Theorem no_credentials_is_rejected
    (v : variant) (w : world) (body : json) (prompt : jsval) :
  (forall p, configured (env w) p = false) ->
  member Fprompt (Val body) = inr prompt ->
  string_prompt prompt = true ->
  exists msg,
    aggregate v w body = ([], Reply 400 (JObject [(lit "error", JString msg)])).
Proof.
  intros Hnone Hm Hs.
  destruct prompt as [|[| | |s| |]]; try discriminate Hs.
  - exists (lit "prompt required").
    apply (aggregate_falsy v w body Undefined Hm). reflexivity.
  - assert (Ha : attempted w = []).
    { unfold attempted, all_providers. simpl. rewrite !Hnone. reflexivity. }
    rewrite (aggregate_string v w body s Hm), Ha.
    destruct s; [exists (lit "prompt required") | exists (no_keys_message v)];
      reflexivity.
Qed.

Lemma no_credentials_is_rejected_witness :
  exists msg,
    aggregate Logging world_unconfigured (body_with_prompt "Explain 5G") =
      ([], Reply 400 (JObject [(lit "error", JString msg)])).
Proof.
  apply (no_credentials_is_rejected Logging world_unconfigured
           (body_with_prompt "Explain 5G") (Val (JString (lit "Explain 5G")))).
  - intros p. destruct p; reflexivity.
  - reflexivity.
  - reflexivity.
Defined.

(** A credential that is set to the empty string counts as not
    configured. *)
Example empty_credential_is_skipped :
  configured (Env (Some []) None None None None) Chatgpt = false.
Proof. reflexivity. Qed.

(** In the plain variant the same holds for every body that can be
    destructured, whatever the type of its [prompt]. *)
Lemma no_credentials_is_rejected_plain (w : world) (body : json) (prompt : jsval) :
  (forall p, configured (env w) p = false) ->
  member Fprompt (Val body) = inr prompt ->
  exists msg,
    aggregate Plain w body = ([], Reply 400 (JObject [(lit "error", JString msg)])).
Proof.
  intros Hnone Hm.
  destruct (truthy prompt) eqn:Ht.
  - assert (Ha : attempted w = []).
    { unfold attempted, all_providers. simpl. rewrite !Hnone. reflexivity. }
    unfold aggregate. rewrite Hm. destruct prompt as [|p]; [discriminate Ht|].
    simpl in Ht. rewrite Ht. unfold aggregate_main. cbn [negb].
    rewrite aggregate_try_eq, Ha. exists (no_keys_message Plain).
    unfold sequential_calls. rewrite Ha. reflexivity.
  - exists (lit "prompt required").
    apply (aggregate_falsy Plain w body prompt Hm Ht).
Qed.

(** C6, at its failing input. With no credential configured and the
    body [{ "prompt": 5 }], the plain variant answers 400 as it does
    for every prompt, but the logging variant sends nothing: it logs
    [prompt.slice (0, 50)] before its [try], the call throws, and the
    exception escapes the handler. *)
Theorem logging_variant_misses_the_400 (w : world) :
  (forall p, configured (env w) p = false) ->
  aggregate Plain w (JObject [(lit "prompt", JNumber 5)])
    = ([], Reply 400 (JObject [(lit "error",
                                JString (lit "No API keys configured"))])) /\
  exists e,
    aggregate Logging w (JObject [(lit "prompt", JNumber 5)])
      = ([], NoReply e) /\
    message e = lit "prompt.slice is not a function".
Proof.
  intros Hnone.
  assert (Ha : attempted w = []).
  { unfold attempted, all_providers. simpl. rewrite !Hnone. reflexivity. }
  split.
  - rewrite (aggregate_truthy Plain w (JObject [(lit "prompt", JNumber 5)])
               (JNumber 5) eq_refl eq_refl), Ha.
    reflexivity.
  - eexists. split; reflexivity.
Qed.

Lemma logging_variant_misses_the_400_witness :
  aggregate Plain world_unconfigured (JObject [(lit "prompt", JNumber 5)])
    = ([], Reply 400 (JObject [(lit "error",
                                JString (lit "No API keys configured"))])) /\
  exists e,
    aggregate Logging world_unconfigured (JObject [(lit "prompt", JNumber 5)])
      = ([], NoReply e) /\
    message e = lit "prompt.slice is not a function".
Proof.
  apply (logging_variant_misses_the_400 world_unconfigured).
  intros p. destruct p; reflexivity.
Defined.

(** The same, evaluated on the sample world. *)
Example logging_variant_number_prompt :
  exists e,
    aggregate Logging world_unconfigured (JObject [(lit "prompt", JNumber 5)])
      = ([], NoReply e).
Proof. eexists. reflexivity. Qed.

(** *** Health check *)

(** C9, as the code has it. [GET /health] answers 200 with
    [status: "ok"] and has no effect; [port] is the number 3001 when
    [PORT] is unset or empty, and otherwise the string held by [PORT]. *)
Theorem health_reply (w : world) :
  exists port,
    health w =
      ([], Reply 200 (JObject [(lit "status", JString (lit "ok"));
                               (lit "port", port)])) /\
    port = match PORT (env w) with
           | Some (c :: s) => JString (c :: s)
           | _ => JNumber 3001
           end /\
    is_number port = match PORT (env w) with
                     | Some (_ :: _) => false
                     | _ => true
                     end.
Proof.
  unfold health.
  destruct (PORT (env w)) as [[|c s]|]; eexists; repeat split; reflexivity.
Qed.

(** C9 fails as stated: with [PORT=8080] in the environment the [port]
    field of the health body is the string ["8080"], not a number. *)
Lemma health_port_is_a_string_when_set :
  exists props port,
    health world_failing = ([], Reply 200 (JObject props)) /\
    lookup (lit "port") props = Val port /\
    port = JString (lit "8080") /\
    is_number port = false.
Proof. do 2 eexists. repeat split; reflexivity. Qed.

(** *** Slides *)

Lemma firstn_prefix {A} (n : nat) (l : list A) :
  exists tail, l = firstn n l ++ tail.
Proof. exists (skipn n l). symmetry. apply firstn_skipn. Qed.

(** C7. The body of a content slide is the entry's text (the value
    itself when it is a string) when that text has at most 3500 code
    units, and its first 3500 code units followed by a line break and
    three dots when it is longer. *)
Theorem content_body_is_the_truncated_result (k : jsstring) (v : json) :
  exists heading body,
    blocks (content_slide k v) = [heading; body] /\
    (forall s, v = JString s -> content_of v = s) /\
    ((List.length (content_of v) <= 3500)%nat ->
       text body = content_of v) /\
    ((3500 < List.length (content_of v))%nat ->
       text body = firstn 3500 (content_of v) ++ [10%N] ++ lit "...").
Proof.
  do 2 eexists. split; [reflexivity|]. split; [|split].
  - intros s ->. reflexivity.
  - intros H. cbn [text]. unfold truncated.
    destruct (Nat.ltb_spec 3500 (List.length (content_of v))); [lia|reflexivity].
  - intros H. cbn [text]. unfold truncated.
    destruct (Nat.ltb_spec 3500 (List.length (content_of v))); [reflexivity|lia].
Qed.

Lemma content_body_is_the_truncated_result_witness :
  (exists heading body,
     blocks (content_slide (lit "chatgpt") (JString (lit "5G is...")))
       = [heading; body] /\
     text body = lit "5G is...") /\
  (exists heading body,
     blocks (content_slide (lit "gemini") (JString (repeat 97%N 3501)))
       = [heading; body] /\
     text body = repeat 97%N 3500 ++ [10%N] ++ lit "...").
Proof.
  split.
  - destruct (content_body_is_the_truncated_result
                (lit "chatgpt") (JString (lit "5G is...")))
      as [heading [body [Hb [_ [Hshort _]]]]].
    exists heading, body. split; [exact Hb|].
    apply Hshort. apply Nat.leb_le. vm_compute. reflexivity.
  - destruct (content_body_is_the_truncated_result
                (lit "gemini") (JString (repeat 97%N 3501)))
      as [heading [body [Hb [_ [_ Hlong]]]]].
    exists heading, body. split; [exact Hb|].
    rewrite Hlong.
    + reflexivity.
    + apply Nat.ltb_lt. vm_compute. reflexivity.
Defined.

(** The only rendering event of a request carries the deck built from
    the prompt's first 100 code units and the result mapping. *)
Lemma write_event_is_the_deck
    (v : variant) (w : world) (body : json) (s : jsstring) (pres : presentation) :
  member Fprompt (Val body) = inr (Val (JString s)) ->
  In (EvWrite pres) (fst (aggregate v w body)) ->
  pres = deck w (JString s) (JString (slice0 100 s)).
Proof.
  intros Hm Hin. rewrite (aggregate_string v w body s Hm) in Hin.
  destruct s as [|c s]; [destruct Hin|].
  destruct (attempted w) as [|p ps] eqn:Ha; [destruct Hin|].
  cbv zeta in Hin. cbn [fst] in Hin.
  rewrite !in_app_iff in Hin.
  destruct Hin as [Hin | [Hin | [Hin | Hin]]].
  - unfold sequential_calls in Hin. apply in_flat_map in Hin.
    destruct Hin as [q [_ [Hq | [Hq | []]]]]; discriminate Hq.
  - destruct Hin as [Hq | [Hq | []]]; discriminate Hq.
  - apply repeat_spec in Hin. discriminate Hin.
  - destruct Hin as [Hq | []]. inversion Hq. reflexivity.
Qed.

(** C8, as the code has it. On the deck a request hands to the
    renderer, the first slide's second text block is ["Prompt: "], then
    the text of [prompt.slice (0, 100)], then three dots - always. For a
    string prompt the middle part is exactly its first 100 code units
    (the whole prompt when it has no more). For an array prompt, which
    is accepted because arrays have [slice] too, it is the text of the
    array of its first 100 elements. *)
Theorem subtitle_is_prompt_prefix_and_ellipsis
    (v : variant) (w : world) (body p : json) (pres : presentation) :
  member Fprompt (Val body) = inr (Val p) ->
  In (EvWrite pres) (fst (aggregate v w body)) ->
  exists first others heading sub head,
    slides pres = first :: others /\
    blocks first = [heading; sub] /\
    slice_prompt 100 p = inr head /\
    text sub = lit "Prompt: " ++ to_string head ++ lit "..." /\
    ends_with (lit "...") (text sub) = true /\
    (forall s, p = JString s ->
       text sub = lit "Prompt: " ++ firstn 100 s ++ lit "..." /\
       (exists tail, s = firstn 100 s ++ tail) /\
       (List.length (firstn 100 s) <= 100)%nat /\
       ((List.length s <= 100)%nat -> firstn 100 s = s)) /\
    (forall items, p = JArray items ->
       text sub = lit "Prompt: " ++ to_string (JArray (firstn 100 items))
                    ++ lit "...").
Proof.
  intros Hm Hin.
  destruct (write_event_of_any_prompt v w body p pres Hm Hin)
    as [head [Hs ->]].
  do 4 eexists. exists head.
  split; [reflexivity|]. split; [reflexivity|]. split; [exact Hs|].
  split; [reflexivity|]. split; [|split].
  - cbn [text]. unfold subtitle. rewrite app_assoc. apply ends_with_app.
  - intros s ->. cbn [slice_prompt] in Hs. inversion Hs. subst head.
    split; [reflexivity|]. split; [apply firstn_prefix|].
    split; [apply firstn_le_length|]. apply firstn_all2.
  - intros items ->. cbn [slice_prompt] in Hs. inversion Hs. reflexivity.
Qed.

Lemma subtitle_is_prompt_prefix_and_ellipsis_witness :
  exists first others heading sub head,
    slides (deck world_single (JString long_prompt)
              (JString (repeat 97%N 100))) = first :: others /\
    blocks first = [heading; sub] /\
    slice_prompt 100 (JString long_prompt) = inr head /\
    text sub = lit "Prompt: " ++ to_string head ++ lit "..." /\
    ends_with (lit "...") (text sub) = true /\
    (forall s, JString long_prompt = JString s ->
       text sub = lit "Prompt: " ++ firstn 100 s ++ lit "..." /\
       (exists tail, s = firstn 100 s ++ tail) /\
       (List.length (firstn 100 s) <= 100)%nat /\
       ((List.length s <= 100)%nat -> firstn 100 s = s)) /\
    (forall items, JString long_prompt = JArray items ->
       text sub = lit "Prompt: " ++ to_string (JArray (firstn 100 items))
                    ++ lit "...").
Proof.
  apply (subtitle_is_prompt_prefix_and_ellipsis Plain world_single
           (JObject [(lit "prompt", JString long_prompt)])
           (JString long_prompt)).
  - reflexivity.
  - vm_compute. do 5 right. left. reflexivity.
Defined.

(** C8 fails as stated for a prompt that is not a string: an array of
    100 one-letter strings is accepted, the request is answered 200,
    and the part of the subtitle between ["Prompt: "] and the dots has
    199 code units (the letters and the commas between them). *)
Lemma array_prompt_subtitle_exceeds_100 :
  exists pres first others heading sub portion b,
    aggregate Plain world_single (JObject [(lit "prompt", array_prompt)])
      = (sequential_calls world_single array_prompt
           ++ [EvNewPresentation; EvAddSlide; EvAddSlide; EvWrite pres],
         Reply 200 b) /\
    slides pres = first :: others /\
    blocks first = [heading; sub] /\
    text sub = lit "Prompt: " ++ portion ++ lit "..." /\
    portion = join (lit ",") (repeat (lit "a") 100) /\
    List.length portion = 199%nat.
Proof.
  exists (deck world_single array_prompt array_prompt).
  do 4 eexists. exists (join (lit ",") (repeat (lit "a") 100)).
  eexists.
  split; [vm_compute; reflexivity|].
  split; [vm_compute; reflexivity|].
  split; [vm_compute; reflexivity|].
  split; [vm_compute; reflexivity|].
  split; [reflexivity | vm_compute; reflexivity].
Qed.

(** *** Failure isolation *)


(** The status of a response is never read. *)
Lemma status_is_ignored (p : provider) (st st' : Z) (body : exn + json) :
  outcome_value p (Responded st body) = outcome_value p (Responded st' body).
Proof. reflexivity. Qed.

(** A body that decodes to anything but [null] never makes a block
    throw: the extraction is optional chaining all the way. *)
Lemma decoded_body_does_not_throw (p : provider) (st : Z) (j : json) :
  j <> JNull -> thrown p (Responded st (inr j)) = None.
Proof.
  intros Hj. destruct j; try (destruct p; reflexivity). contradiction.
Qed.





(** *** Order of the calls *)

Lemma forallb_repeat {A} (f : A -> bool) (x : A) (n : nat) :
  f x = true -> forallb f (repeat x n) = true.
Proof.
  intros H. induction n as [|n IH]; [reflexivity|].
  simpl. rewrite H. exact IH.
Qed.

(** C3, as the code has it. The calls run one after the other, in block
    order: each configured provider's call is issued and settles before
    the next one is issued, and everything else the handler does (the
    empty-mapping check, slide assembly, rendering) comes after the
    last call has settled. *)
Theorem provider_calls_run_one_after_another
    (v : variant) (w : world) (body : json) (s : jsstring) :
  member Fprompt (Val body) = inr (Val (JString s)) ->
  s <> [] ->
  exists rest,
    fst (aggregate v w body) =
      flat_map
        (fun p =>
           [EvFetch p (request_for p (api_key (env w) p) (JString s));
            EvSettled p])
        (filter (configured (env w)) all_providers)
      ++ rest /\
    forallb (fun ev => negb (is_call_event ev)) rest = true.
Proof.
  intros Hm Hs. rewrite (aggregate_string v w body s Hm).
  destruct s as [|c s]; [contradiction|].
  unfold sequential_calls. fold (attempted w).
  destruct (attempted w) as [|p ps] eqn:Ha.
  - exists []. split; reflexivity.
  - cbv zeta. cbn [fst]. eexists. split; [reflexivity|].
    rewrite !forallb_app. cbn [forallb is_call_event negb andb].
    rewrite forallb_repeat; reflexivity.
Qed.

Lemma provider_calls_run_one_after_another_witness :
  exists rest,
    fst (aggregate Plain world_failing (body_with_prompt "X")) =
      flat_map
        (fun p =>
           [EvFetch p (request_for p (api_key (env world_failing) p)
                         (JString (lit "X")));
            EvSettled p])
        (filter (configured (env world_failing)) all_providers)
      ++ rest /\
    forallb (fun ev => negb (is_call_event ev)) rest = true.
Proof.
  apply (provider_calls_run_one_after_another Plain world_failing
           (body_with_prompt "X") (lit "X")).
  - reflexivity.
  - discriminate.
Defined.

(** C3 fails as stated: with two providers configured, the second call
    is issued only after the first has settled. *)
Lemma second_call_waits_for_the_first :
  launched_together
    (fst (aggregate Plain world_failing (body_with_prompt "X"))) = false /\
  exists q1 q2 rest,
    fst (aggregate Plain world_failing (body_with_prompt "X")) =
      EvFetch Chatgpt q1 :: EvSettled Chatgpt
        :: EvFetch Gemini q2 :: EvSettled Gemini :: rest.
Proof.
  split; [vm_compute; reflexivity|].
  do 3 eexists. vm_compute. reflexivity.
Qed.

(** *** Response packaging *)

(** C4, as the code has it. A 200 response of the aggregate handler is
    the envelope [{ ok: true, pptx, fileName }]: [pptx] is the base64
    text of the bytes the renderer returned for the deck, [fileName] is
    ["ai-aggregation-"], the clock in milliseconds, [".pptx"]. *)
Theorem success_envelope
    (v : variant) (w : world) (body : json) (t : list event) (b : json) :
  aggregate v w body = (t, Reply 200 b) ->
  exists pres buffer,
    In (EvWrite pres) t /\
    write w pres = inr buffer /\
    b = JObject
          [(lit "ok", JBool true);
           (lit "pptx", JString (base64 buffer));
           (lit "fileName",
            JString (lit "ai-aggregation-" ++ dec (now w) ++ lit ".pptx"))].
Proof.
  unfold aggregate.
  destruct (member Fprompt (Val body)) as [e | [| prompt]];
    try (intros H; inversion H; fail).
  destruct (truthy_json prompt); cbn [negb];
    try (intros H; inversion H; fail).
  unfold aggregate_main.
  destruct (match v with
            | Plain => inr prompt
            | Logging => slice_prompt 50 prompt
            end) as [e | x];
    try (intros H; inversion H; fail).
  rewrite aggregate_try_eq.
  destruct (attempted w) as [|p ps];
    try (intros H; inversion H; fail).
  destruct (slice_prompt 100 prompt) as [e | head];
    try (intros H; inversion H; fail).
  destruct (write w (deck w prompt head)) as [e | buffer] eqn:Hw;
    intros H; [inversion H|].
  injection H as Ht Hb. subst t b.
  exists (deck w prompt head), buffer.
  split; [|split; [exact Hw | reflexivity]].
  apply in_or_app. right.
  change (In (EvWrite (deck w prompt head))
            ([EvNewPresentation; EvAddSlide]
               ++ repeat EvAddSlide (List.length (p :: ps))
               ++ [EvWrite (deck w prompt head)])).
  rewrite !in_app_iff. do 2 right. left. reflexivity.
Qed.

Lemma success_envelope_witness :
  exists pres buffer,
    In (EvWrite pres)
       (fst (aggregate Plain world_single (body_with_prompt "Explain 5G"))) /\
    write world_single pres = inr buffer /\
    JObject [(lit "ok", JBool true);
             (lit "pptx", JString (lit "UEsDBA=="));
             (lit "fileName", JString (lit "ai-aggregation-1700000000000.pptx"))]
    = JObject
        [(lit "ok", JBool true);
         (lit "pptx", JString (base64 buffer));
         (lit "fileName",
          JString (lit "ai-aggregation-" ++ dec (now world_single)
                     ++ lit ".pptx"))].
Proof.
  apply (success_envelope Plain world_single (body_with_prompt "Explain 5G")).
  vm_compute. reflexivity.
Defined.

(** C4 fails as stated: the envelope of a successful request has no
    field named [document]; the encoded deck is under [pptx]. *)
Lemma envelope_has_no_document_field :
  exists props deck64,
    snd (aggregate Plain world_single (body_with_prompt "Explain 5G"))
      = Reply 200 (JObject props) /\
    lookup (lit "document") props = Undefined /\
    lookup (lit "pptx") props = Val (JString deck64) /\
    keys props = [lit "ok"; lit "pptx"; lit "fileName"].
Proof.
  do 2 eexists. split; [vm_compute; reflexivity|].
  split; [|split]; vm_compute; reflexivity.
Qed.

(* ================================================================== *)
(** ** Further properties of the server *)
(* ================================================================== *)

(** *** Strings and headers *)

Lemma jsstring_eqb_eq (a b : jsstring) : jsstring_eqb a b = true <-> a = b.
Proof.
  revert b. induction a as [|x a IH]; intros [|y b]; simpl;
    try (split; [discriminate | discriminate]); [tauto|].
  rewrite andb_true_iff, N.eqb_eq, IH. split.
  - intros [-> ->]. reflexivity.
  - intros H. inversion H. split; reflexivity.
Qed.

Lemma jsstring_eqb_refl (a : jsstring) : jsstring_eqb a a = true.
Proof. apply jsstring_eqb_eq. reflexivity. Qed.

Lemma jsstring_eqb_neq (a b : jsstring) : jsstring_eqb a b = false <-> a <> b.
Proof.
  rewrite <- jsstring_eqb_eq. destruct (jsstring_eqb a b); split;
    congruence.
Qed.

Lemma allowed_iff (o : jsstring) :
  existsb (jsstring_eqb o) allowedOrigins = true <-> In o allowedOrigins.
Proof.
  rewrite existsb_exists. split.
  - intros [x [Hin Heq]]. apply jsstring_eqb_eq in Heq. subst x. exact Hin.
  - intros Hin. exists o. split; [exact Hin | apply jsstring_eqb_refl].
Qed.

(** The headers [cors] leaves on a fresh response. *)
Lemma cors_headers (req : incoming) :
  fst (cors req []) =
    match origin req with
    | Some o =>
        if existsb (jsstring_eqb o) allowedOrigins
        then [(lit "Access-Control-Allow-Origin", o)]
        else []
    | None => []
    end
    ++ [(lit "Access-Control-Allow-Methods",
         lit "GET, POST, PUT, DELETE, OPTIONS");
        (lit "Access-Control-Allow-Headers",
         lit "Content-Type, Authorization");
        (lit "Access-Control-Allow-Credentials", lit "true")].
Proof.
  unfold cors.
  destruct (jsstring_eqb (method req) (lit "OPTIONS")); cbn [fst];
    (destruct (origin req) as [o|];
     [destruct (existsb (jsstring_eqb o) allowedOrigins)|]);
    try generalize o; clear; intros; vm_compute; reflexivity.
Qed.

Lemma serve_headers (v : variant) (w : world) (req : incoming) (to : target) :
  headers_of (serve v w req to) = fst (cors req []).
Proof.
  unfold serve, headers_of.
  destruct (cors req []) as [hs [code|]]; [reflexivity|].
  destruct to as [|body|]; [destruct (health w) | destruct (aggregate v w body) |];
    reflexivity.
Qed.

(** *** Cross-origin headers *)

(** X1. The allow-origin header is present on a response exactly when the
    request's [Origin] is one of the three listed origins, and then it
    repeats that origin. *)
Theorem allow_origin_repeats_a_listed_origin
    (v : variant) (w : world) (req : incoming) (to : target) (o : jsstring) :
  get_header (lit "Access-Control-Allow-Origin")
    (headers_of (serve v w req to)) = Some o
  <-> origin req = Some o /\ In o allowedOrigins.
Proof.
  rewrite serve_headers, cors_headers.
  destruct (origin req) as [o'|].
  - destruct (existsb (jsstring_eqb o') allowedOrigins) eqn:Ha.
    + cbn [app get_header]. rewrite jsstring_eqb_refl. split.
      * intros H. inversion H. subst o'. split; [reflexivity|].
        apply allowed_iff. exact Ha.
      * intros [H _]. inversion H. reflexivity.
    + split.
      * intros H. vm_compute in H. discriminate H.
      * intros [H Hin]. inversion H. subst o'.
        apply allowed_iff in Hin. congruence.
  - split.
    + intros H. vm_compute in H. discriminate H.
    + intros [H _]. discriminate H.
Qed.

(** X2. Every response - preflight, health, aggregate with any status -
    carries the three fixed cross-origin headers. *)
Theorem every_response_has_the_fixed_cors_headers
    (v : variant) (w : world) (req : incoming) (to : target) :
  let hs := headers_of (serve v w req to) in
  get_header (lit "Access-Control-Allow-Methods") hs
    = Some (lit "GET, POST, PUT, DELETE, OPTIONS") /\
  get_header (lit "Access-Control-Allow-Headers") hs
    = Some (lit "Content-Type, Authorization") /\
  get_header (lit "Access-Control-Allow-Credentials") hs
    = Some (lit "true").
Proof.
  cbv zeta. rewrite serve_headers, cors_headers.
  destruct (origin req) as [o|];
    [destruct (existsb (jsstring_eqb o) allowedOrigins)|];
    try generalize o; clear; intros; repeat split; vm_compute; reflexivity.
Qed.

(** X3. An [OPTIONS] request is answered 204 by the middleware whatever it
    targets: no handler runs, no provider is called, nothing is
    rendered. *)
Theorem preflight_stops_at_the_middleware
    (v : variant) (w : world) (req : incoming) (to : target) :
  method req = lit "OPTIONS" ->
  outcome_of (serve v w req to) = StatusOnly 204 /\
  trace_of (serve v w req to) = [].
Proof.
  intros Hm. unfold serve, cors. rewrite Hm.
  split; reflexivity.
Qed.

Lemma preflight_stops_at_the_middleware_witness :
  outcome_of (serve Logging world_single
                (Incoming (lit "OPTIONS") (Some (lit "http://evil.example")))
                (ToAggregate (body_with_prompt "Explain 5G")))
    = StatusOnly 204 /\
  trace_of (serve Logging world_single
              (Incoming (lit "OPTIONS") (Some (lit "http://evil.example")))
              (ToAggregate (body_with_prompt "Explain 5G"))) = [].
Proof.
  apply (preflight_stops_at_the_middleware Logging world_single
           (Incoming (lit "OPTIONS") (Some (lit "http://evil.example")))
           (ToAggregate (body_with_prompt "Explain 5G"))).
  reflexivity.
Defined.

(** X4. The origin check only decides a header: a request with any other
    method reaches its handler whatever its origin, listed or not, and
    the handler's effects and reply are unchanged. *)
Theorem origin_does_not_gate_the_handlers
    (v : variant) (w : world) (req : incoming) (body : json) :
  method req <> lit "OPTIONS" ->
  trace_of (serve v w req (ToAggregate body)) = fst (aggregate v w body) /\
  outcome_of (serve v w req (ToAggregate body))
    = Handled (snd (aggregate v w body)) /\
  outcome_of (serve v w req ToHealth) = Handled (snd (health w)).
Proof.
  intros Hm. apply jsstring_eqb_neq in Hm.
  unfold serve, cors. rewrite Hm.
  destruct (aggregate v w body) as [t r]. repeat split.
Qed.

Lemma origin_does_not_gate_the_handlers_witness :
  trace_of (serve Plain world_single
              (Incoming (lit "POST") (Some (lit "http://evil.example")))
              (ToAggregate (body_with_prompt "Explain 5G")))
    = fst (aggregate Plain world_single (body_with_prompt "Explain 5G")) /\
  outcome_of (serve Plain world_single
                (Incoming (lit "POST") (Some (lit "http://evil.example")))
                (ToAggregate (body_with_prompt "Explain 5G")))
    = Handled (snd (aggregate Plain world_single
                      (body_with_prompt "Explain 5G"))) /\
  outcome_of (serve Plain world_single
                (Incoming (lit "POST") (Some (lit "http://evil.example")))
                ToHealth)
    = Handled (snd (health world_single)).
Proof.
  apply (origin_does_not_gate_the_handlers Plain world_single
           (Incoming (lit "POST") (Some (lit "http://evil.example")))
           (body_with_prompt "Explain 5G")).
  discriminate.
Defined.

(** *** Calls made by a request *)

Lemma calls_to_app (p : provider) (a b : list event) :
  calls_to p (a ++ b) = (calls_to p a + calls_to p b)%nat.
Proof. unfold calls_to. rewrite filter_app, length_app. reflexivity. Qed.

Lemma calls_to_repeat_add_slide (p : provider) (n : nat) :
  calls_to p (repeat EvAddSlide n) = 0%nat.
Proof. induction n as [|n IH]; [reflexivity | exact IH]. Qed.

Lemma calls_to_sequential (w : world) (prompt : json) (p : provider) :
  calls_to p (sequential_calls w prompt) =
  if configured (env w) p then 1%nat else 0%nat.
Proof.
  unfold sequential_calls, attempted, all_providers. cbn [filter].
  destruct p;
    destruct (configured (env w) Chatgpt), (configured (env w) Gemini),
             (configured (env w) Claude), (configured (env w) Perplexity);
    cbn [flat_map app];
    generalize (request_of w prompt Chatgpt) (request_of w prompt Gemini)
               (request_of w prompt Claude) (request_of w prompt Perplexity);
    clear; intros; reflexivity.
Qed.

(** X5. A request with a non-empty string prompt calls each configured
    provider exactly once and the others not at all. *)
Theorem each_configured_provider_is_called_once
    (v : variant) (w : world) (body : json) (s : jsstring) (p : provider) :
  member Fprompt (Val body) = inr (Val (JString s)) ->
  s <> [] ->
  calls_to p (fst (aggregate v w body)) =
  if configured (env w) p then 1%nat else 0%nat.
Proof.
  intros Hm Hs. rewrite (aggregate_string v w body s Hm).
  destruct s as [|c s]; [contradiction|].
  rewrite <- (calls_to_sequential w (JString (c :: s)) p).
  unfold sequential_calls.
  destruct (attempted w) as [|q qs]; [reflexivity|].
  cbv zeta. cbn [fst]. rewrite !calls_to_app, calls_to_repeat_add_slide.
  cbn [calls_to filter List.length]. lia.
Qed.

Lemma each_configured_provider_is_called_once_witness :
  calls_to Gemini
    (fst (aggregate Plain world_failing (body_with_prompt "X"))) = 1%nat /\
  calls_to Claude
    (fst (aggregate Plain world_failing (body_with_prompt "X"))) = 0%nat.
Proof.
  split.
  - apply (each_configured_provider_is_called_once Plain world_failing
             (body_with_prompt "X") (lit "X") Gemini);
      [reflexivity | discriminate].
  - apply (each_configured_provider_is_called_once Plain world_failing
             (body_with_prompt "X") (lit "X") Claude);
      [reflexivity | discriminate].
Defined.

(** The call events of a request: one per configured provider, with
    the request built for it. *)
Lemma fetch_events_of_a_request
    (v : variant) (w : world) (body : json) (s : jsstring)
    (p : provider) (req : http_request) :
  member Fprompt (Val body) = inr (Val (JString s)) ->
  s <> [] ->
  (In (EvFetch p req) (fst (aggregate v w body)) <->
   configured (env w) p = true /\
   exists k, credential (env w) p = Some k /\
             req = request_for p k (JString s)).
Proof.
  intros Hm Hs. rewrite (aggregate_string v w body s Hm).
  destruct s as [|c s]; [contradiction|].
  assert (Hseq : In (EvFetch p req) (sequential_calls w (JString (c :: s))) <->
                 configured (env w) p = true /\
                 req = request_of w (JString (c :: s)) p).
  { unfold sequential_calls. rewrite in_flat_map. split.
    - intros [q [Hq [H | [H | []]]]]; inversion H; subst.
      split; [apply attempted_iff; exact Hq | reflexivity].
    - intros [Hc ->]. exists p. split; [apply attempted_iff; exact Hc|].
      left. reflexivity. }
  assert (Hkey : configured (env w) p = true ->
                 exists k, credential (env w) p = Some k /\
                           api_key (env w) p = k).
  { unfold configured, api_key. destruct (credential (env w) p) as [k|].
    - intros _. exists k. split; reflexivity.
    - discriminate. }
  split.
  - intros Hin.
    assert (Hin' : In (EvFetch p req) (sequential_calls w (JString (c :: s)))).
    { destruct (attempted w) as [|q qs] eqn:Ha.
      - destruct Hin.
      - cbv zeta in Hin. cbn [fst] in Hin. rewrite !in_app_iff in Hin.
        destruct Hin as [H | [H | [H | H]]].
        + exact H.
        + destruct H as [H | [H | []]]; discriminate H.
        + apply repeat_spec in H. discriminate H.
        + destruct H as [H | []]. discriminate H. }
    apply Hseq in Hin'. destruct Hin' as [Hc ->]. split; [exact Hc|].
    destruct (Hkey Hc) as [k [Hk Ha]]. exists k. split; [exact Hk|].
    unfold request_of. rewrite Ha. reflexivity.
  - intros [Hc [k [Hk ->]]].
    assert (Hin : In (EvFetch p (request_for p k (JString (c :: s))))
                     (sequential_calls w (JString (c :: s)))).
    { apply Hseq. split; [exact Hc|]. unfold request_of, api_key.
      rewrite Hk. reflexivity. }
    destruct (attempted w) as [|q qs] eqn:Ha.
    + unfold sequential_calls in Hin. rewrite Ha in Hin. destruct Hin.
    + cbv zeta. cbn [fst]. apply in_or_app. left. exact Hin.
Qed.

(** X6. A provider is called only when it is configured, and the
    request it receives carries this request's prompt, unchanged, where
    that provider's API reads the user's text, and that provider's own
    credential where its API expects it: a bearer header for the two
    chat-completions providers, the [key] query parameter and no
    authorization header for Gemini, the [x-api-key] header for
    Claude. *)
Theorem calls_carry_the_prompt_and_own_credential
    (v : variant) (w : world) (body : json) (s : jsstring)
    (p : provider) (req : http_request) :
  member Fprompt (Val body) = inr (Val (JString s)) ->
  In (EvFetch p req) (fst (aggregate v w body)) ->
  configured (env w) p = true /\
  exists k,
    credential (env w) p = Some k /\
    sent_prompt p (payload req) = Val (JString s) /\
    get_header (lit "Content-Type") (headers req)
      = Some (lit "application/json") /\
    match p with
    | Chatgpt =>
        url req = lit "https://api.openai.com/v1/chat/completions" /\
        get_header (lit "Authorization") (headers req)
          = Some (lit "Bearer " ++ k)
    | Gemini =>
        url req = lit "https://generativelanguage.googleapis.com/v1beta/models/gemini-pro:generateContent?key=" ++ k /\
        get_header (lit "Authorization") (headers req) = None
    | Claude =>
        url req = lit "https://api.anthropic.com/v1/messages" /\
        get_header (lit "x-api-key") (headers req) = Some k /\
        get_header (lit "anthropic-version") (headers req)
          = Some (lit "2023-06-01")
    | Perplexity =>
        url req = lit "https://api.perplexity.ai/chat/completions" /\
        get_header (lit "Authorization") (headers req)
          = Some (lit "Bearer " ++ k)
    end.
Proof.
  intros Hm Hin.
  assert (Hs : s <> []).
  { intros ->. unfold aggregate in Hin. rewrite Hm in Hin. destruct Hin. }
  apply (fetch_events_of_a_request v w body s p req Hm Hs) in Hin.
  destruct Hin as [Hc [k [Hk ->]]]. split; [exact Hc|].
  exists k. split; [exact Hk|].
  clear. destruct p; repeat split; reflexivity.
Qed.

Lemma calls_carry_the_prompt_and_own_credential_witness :
  configured (env world_failing) Gemini = true /\
  exists k,
    credential (env world_failing) Gemini = Some k /\
    sent_prompt Gemini
      (JObject [(lit "contents",
                 JArray [JObject [(lit "parts",
                   JArray [JObject [(lit "text", JString (lit "X"))]])]])])
      = Val (JString (lit "X")) /\
    get_header (lit "Content-Type") [(lit "Content-Type", lit "application/json")]
      = Some (lit "application/json") /\
    lit "https://generativelanguage.googleapis.com/v1beta/models/gemini-pro:generateContent?key=g-key"
      = lit "https://generativelanguage.googleapis.com/v1beta/models/gemini-pro:generateContent?key=" ++ k /\
    get_header (lit "Authorization") [(lit "Content-Type", lit "application/json")]
      = None.
Proof.
  apply (calls_carry_the_prompt_and_own_credential Plain world_failing
           (body_with_prompt "X") (lit "X") Gemini
           (Request
              (lit "https://generativelanguage.googleapis.com/v1beta/models/gemini-pro:generateContent?key=g-key")
              [(lit "Content-Type", lit "application/json")]
              (JObject [(lit "contents",
                 JArray [JObject [(lit "parts",
                   JArray [JObject [(lit "text", JString (lit "X"))]])]])]))).
  - reflexivity.
  - vm_compute. do 2 right. left. reflexivity.
Defined.

Lemma renderings_app (a b : list event) :
  renderings (a ++ b) = (renderings a + renderings b)%nat.
Proof. unfold renderings. rewrite filter_app, length_app. reflexivity. Qed.

Lemma renderings_sequential (w : world) (prompt : json) :
  renderings (sequential_calls w prompt) = 0%nat.
Proof.
  unfold sequential_calls. induction (attempted w) as [|q qs IH];
    [reflexivity | exact IH].
Qed.

Lemma renderings_repeat_add_slide (n : nat) :
  renderings (repeat EvAddSlide n) = 0%nat.
Proof. induction n as [|n IH]; [reflexivity | exact IH]. Qed.

(** *** Replies and their cost *)

(** X7. A 400 answer of the aggregate handler - missing prompt or no
    credential - always comes with an empty trace: no provider was
    called and nothing was assembled or rendered. *)
Theorem a_400_reply_has_no_effects
    (v : variant) (w : world) (body b : json) :
  snd (aggregate v w body) = Reply 400 b ->
  fst (aggregate v w body) = [].
Proof.
  destruct (member Fprompt (Val body)) as [e | [|p]] eqn:Hm.
  - unfold aggregate. rewrite Hm. intros _. reflexivity.
  - unfold aggregate. rewrite Hm. intros _. reflexivity.
  - destruct (truthy_json p) eqn:Ht.
    + rewrite (aggregate_truthy v w body p Hm Ht).
      destruct v, (has_slice p), (attempted w) as [|q qs];
        try (intros _; reflexivity); try (intros H; discriminate H);
        destruct (slice_prompt 100 p) as [e | head];
        try (intros H; discriminate H);
        destruct (write w _); intros H; discriminate H.
    + unfold aggregate. rewrite Hm, Ht. intros _. reflexivity.
Qed.

Lemma a_400_reply_has_no_effects_witness :
  fst (aggregate Logging world_unconfigured (body_with_prompt "Explain 5G"))
    = [].
Proof.
  apply (a_400_reply_has_no_effects Logging world_unconfigured
           (body_with_prompt "Explain 5G")
           (error_body (no_keys_message Logging))).
  reflexivity.
Defined.

(** X8. The renderer is invoked at most once per request, and exactly once
    on every request answered 200. *)
Theorem renderer_is_invoked_at_most_once
    (v : variant) (w : world) (body : json) :
  (renderings (fst (aggregate v w body)) <= 1)%nat /\
  (forall b, snd (aggregate v w body) = Reply 200 b ->
             renderings (fst (aggregate v w body)) = 1%nat).
Proof.
  destruct (member Fprompt (Val body)) as [e | [|p]] eqn:Hm.
  - unfold aggregate. rewrite Hm. split; [vm_compute; lia | discriminate].
  - unfold aggregate. rewrite Hm. split; [vm_compute; lia | discriminate].
  - destruct (truthy_json p) eqn:Ht.
    + rewrite (aggregate_truthy v w body p Hm Ht).
      assert (Hrest : forall pres,
                renderings (sequential_calls w p
                   ++ [EvNewPresentation; EvAddSlide]
                   ++ repeat EvAddSlide (List.length (attempted w))
                   ++ [EvWrite pres]) = 1%nat).
      { intros pres. rewrite !renderings_app, renderings_sequential,
          renderings_repeat_add_slide. reflexivity. }
      assert (Hfail : renderings (sequential_calls w p
                        ++ [EvNewPresentation; EvAddSlide]) = 0%nat).
      { rewrite renderings_app, renderings_sequential. reflexivity. }
      destruct v, (has_slice p), (attempted w) as [|q qs] eqn:Ha;
        try (split; [cbn [fst]; unfold renderings;
                     cbn [filter List.length]; lia
                    | discriminate]);
        (destruct (slice_prompt 100 p) as [e | head];
         [cbn [fst snd]; rewrite Hfail; split; [lia | discriminate]
         |cbn [fst snd]; rewrite Hrest; split; [lia | reflexivity]]).
    + unfold aggregate. rewrite Hm, Ht. cbn [negb].
      split; [vm_compute; lia | discriminate].
Qed.


(** X9. In the plain variant a truthy prompt without [slice] (a number,
    [true], an object) is first sent to every configured provider; the
    handler then fails on the title slide and answers 500, and the
    renderer is never invoked. *)
Theorem plain_unsliceable_prompt_calls_then_fails
    (w : world) (body p : json) (q : provider) :
  member Fprompt (Val body) = inr (Val p) ->
  truthy_json p = true ->
  has_slice p = false ->
  configured (env w) q = true ->
  fst (aggregate Plain w body) =
    sequential_calls w p ++ [EvNewPresentation; EvAddSlide] /\
  snd (aggregate Plain w body) =
    Reply 500 (JObject [(lit "error",
                         JString (lit "prompt.slice is not a function"))]) /\
  calls_to q (fst (aggregate Plain w body)) = 1%nat /\
  renderings (fst (aggregate Plain w body)) = 0%nat.
Proof.
  intros Hm Ht Hs Hq.
  rewrite (aggregate_truthy Plain w body p Hm Ht).
  apply attempted_iff in Hq as Hin.
  destruct (attempted w) as [|q0 qs] eqn:Ha; [destruct Hin|].
  rewrite (slice_prompt_has_slice 100 p Hs). cbn [fst snd].
  split; [reflexivity|]. split; [reflexivity|]. split.
  - rewrite calls_to_app, calls_to_sequential, Hq. reflexivity.
  - rewrite renderings_app, renderings_sequential. reflexivity.
Qed.

Lemma plain_unsliceable_prompt_calls_then_fails_witness :
  fst (aggregate Plain world_single (JObject [(lit "prompt", JNumber 5)])) =
    sequential_calls world_single (JNumber 5)
      ++ [EvNewPresentation; EvAddSlide] /\
  snd (aggregate Plain world_single (JObject [(lit "prompt", JNumber 5)])) =
    Reply 500 (JObject [(lit "error",
                         JString (lit "prompt.slice is not a function"))]) /\
  calls_to Chatgpt
    (fst (aggregate Plain world_single (JObject [(lit "prompt", JNumber 5)])))
    = 1%nat /\
  renderings
    (fst (aggregate Plain world_single (JObject [(lit "prompt", JNumber 5)])))
    = 0%nat.
Proof.
  apply (plain_unsliceable_prompt_calls_then_fails world_single
           (JObject [(lit "prompt", JNumber 5)]) (JNumber 5) Chatgpt);
    reflexivity.
Defined.



(** *** Failure of the renderer *)

(** X11. When the renderer throws, the reply is 500 and its [error] field is
    the exception's message, or ["internal error"] when that message is
    empty; only the logging variant adds a [stack] field. *)
Theorem render_failure_is_reported_as_500
    (v : variant) (w : world) (body : json) (s : jsstring)
    (q : provider) (err : exn) :
  member Fprompt (Val body) = inr (Val (JString s)) ->
  s <> [] ->
  configured (env w) q = true ->
  write w (deck w (JString s) (JString (slice0 100 s))) = inl err ->
  exists props,
    snd (aggregate v w body) = Reply 500 (JObject props) /\
    lookup (lit "error") props =
      Val (JString (match message err with
                    | [] => lit "internal error"
                    | _ :: _ => message err
                    end)) /\
    lookup (lit "stack") props =
      match v with
      | Plain => Undefined
      | Logging => Val (JString (stack err))
      end.
Proof.
  intros Hm Hs Hq Hw. rewrite (aggregate_string v w body s Hm).
  destruct s as [|c s]; [contradiction|].
  apply attempted_iff in Hq.
  destruct (attempted w) as [|q0 qs]; [destruct Hq|].
  cbv zeta. cbn [snd]. rewrite Hw.
  destruct err as [msg st]. unfold failure_body. cbn [message stack].
  destruct v, msg as [|m ms]; eexists; (split; [reflexivity|]);
    split; vm_compute; reflexivity.
Qed.

Lemma render_failure_is_reported_as_500_witness :
  exists props,
    snd (aggregate Logging world_render_fails (body_with_prompt "Explain 5G"))
      = Reply 500 (JObject props) /\
    lookup (lit "error") props = Val (JString (lit "internal error")) /\
    lookup (lit "stack") props = Val (JString (lit "Error at write")).
Proof.
  apply (render_failure_is_reported_as_500 Logging world_render_fails
           (body_with_prompt "Explain 5G") (lit "Explain 5G") Chatgpt
           (Exn [] (lit "Error at write")));
    [reflexivity | discriminate | reflexivity | reflexivity].
Defined.

(** *** The deck *)

Lemma shown_name_is_upper_case_key (p : provider) :
  to_upper_case (key p) = shown_name p.
Proof. destruct p; vm_compute; reflexivity. Qed.

(** X12. The deck a request hands to the renderer has one title slide on the
    dark background followed by one white slide per configured
    provider, in the order of the blocks; each of these is headed by
    its provider's upper-cased key and shows that provider's own
    result, truncated. *)
Theorem deck_has_one_slide_per_configured_provider
    (v : variant) (w : world) (body : json) (s : jsstring) (pres : presentation) :
  member Fprompt (Val body) = inr (Val (JString s)) ->
  In (EvWrite pres) (fst (aggregate v w body)) ->
  exists first others,
    slides pres = first :: others /\
    background first = lit "1F2937" /\
    heading_of first = lit "AI Aggregation Results" /\
    List.length others
      = List.length (filter (configured (env w)) all_providers) /\
    map heading_of others
      = map shown_name (filter (configured (env w)) all_providers) /\
    map body_of others
      = map (fun p => truncated (content_of (recorded w (JString s) p)))
            (filter (configured (env w)) all_providers) /\
    Forall (fun sl => background sl = lit "FFFFFF") others.
Proof.
  intros Hm Hin.
  rewrite (write_event_is_the_deck v w body s pres Hm Hin).
  unfold deck. cbn [slides]. fold (attempted w).
  do 2 eexists. split; [reflexivity|].
  split; [reflexivity|]. split; [reflexivity|].
  split; [apply length_map|].
  split; [|split].
  - rewrite map_map. apply map_ext. intros p.
    unfold heading_of. cbn [content_slide blocks text].
    apply shown_name_is_upper_case_key.
  - rewrite map_map. apply map_ext. intros p. reflexivity.
  - apply Forall_map. apply Forall_forall. intros p _. reflexivity.
Qed.

Lemma deck_has_one_slide_per_configured_provider_witness :
  exists first others,
    slides (deck world_failing (JString (lit "X")) (JString (lit "X")))
      = first :: others /\
    background first = lit "1F2937" /\
    heading_of first = lit "AI Aggregation Results" /\
    List.length others
      = List.length (filter (configured (env world_failing)) all_providers) /\
    map heading_of others
      = map shown_name (filter (configured (env world_failing)) all_providers) /\
    map body_of others
      = map (fun p => truncated
                        (content_of (recorded world_failing (JString (lit "X")) p)))
            (filter (configured (env world_failing)) all_providers) /\
    Forall (fun sl => background sl = lit "FFFFFF") others.
Proof.
  apply (deck_has_one_slide_per_configured_provider Plain world_failing
           (body_with_prompt "X") (lit "X")).
  - reflexivity.
  - vm_compute. do 8 right. left. reflexivity.
Defined.

(** *** Truncation *)

Lemma truncated_long (c : jsstring) :
  (3500 < List.length c)%nat ->
  truncated c = firstn 3500 c ++ newline ++ ellipsis.
Proof.
  intros H. unfold truncated, slice0.
  destruct (Nat.ltb_spec 3500 (List.length c)); [reflexivity | lia].
Qed.

Lemma truncated_short (c : jsstring) :
  (List.length c <= 3500)%nat -> truncated c = c.
Proof.
  intros H. unfold truncated.
  destruct (Nat.ltb_spec 3500 (List.length c)); [lia | reflexivity].
Qed.

Lemma tail_length : List.length (newline ++ ellipsis) = 4%nat.
Proof. reflexivity. Qed.

(** X13. The body of a content slide never exceeds 3504 code units, and its
    first 3500 code units are those of the result. *)
Theorem truncated_is_bounded (c : jsstring) :
  (List.length (truncated c) <= 3504)%nat /\
  firstn 3500 (truncated c) = firstn 3500 c.
Proof.
  destruct (Nat.le_gt_cases (List.length c) 3500) as [H | H].
  - rewrite (truncated_short c H). split; [lia | reflexivity].
  - rewrite (truncated_long c H). split.
    + rewrite length_app, tail_length, length_firstn. lia.
    + rewrite firstn_app, length_firstn.
      replace (3500 - Nat.min 3500 (List.length c))%nat with 0%nat by lia.
      rewrite firstn_O, app_nil_r, firstn_firstn, Nat.min_id. reflexivity.
Qed.

(** X14. Truncating twice is truncating once: the marker of a truncated text
    is kept, not doubled. *)
Theorem truncated_is_idempotent (c : jsstring) :
  truncated (truncated c) = truncated c.
Proof.
  destruct (Nat.le_gt_cases (List.length c) 3500) as [H | H].
  - rewrite (truncated_short c H). apply truncated_short. exact H.
  - rewrite (truncated_long c H).
    assert (Hl : List.length (firstn 3500 c) = 3500%nat)
      by (rewrite length_firstn; lia).
    rewrite truncated_long
      by (rewrite length_app, tail_length, Hl; lia).
    rewrite firstn_app, Hl. replace (3500 - 3500)%nat with 0%nat by lia.
    rewrite firstn_O, app_nil_r, firstn_firstn, Nat.min_id. reflexivity.
Qed.

(** X15. A result of 3501 to 3503 code units comes out of the truncation
    longer than it went in: 3500 code units are kept and four are
    added. *)
Theorem truncation_can_lengthen (c : jsstring) :
  (3500 < List.length c < 3504)%nat ->
  List.length (truncated c) = 3504%nat /\
  (List.length c < List.length (truncated c))%nat.
Proof.
  intros [H1 H2]. rewrite (truncated_long c H1).
  rewrite length_app, tail_length, length_firstn. lia.
Qed.

Lemma truncation_can_lengthen_witness :
  List.length (truncated (repeat 97%N 3501)) = 3504%nat /\
  (List.length (repeat 97%N 3501)
   < List.length (truncated (repeat 97%N 3501)))%nat.
Proof.
  apply (truncation_can_lengthen (repeat 97%N 3501)).
  rewrite repeat_length. split; apply Nat.ltb_lt; vm_compute; reflexivity.
Defined.

(** *** What a provider's block records *)

(** X16. When the extraction path leads to a truthy value, that value is
    recorded as it is - the answer text on the success path. *)
Theorem truthy_extraction_is_recorded_as_is
    (w : world) (prompt : json) (p : provider)
    (status : Z) (j x : json) :
  configured (env w) p = true ->
  upstream w p (request_for p (api_key (env w) p) prompt)
    = Responded status (inr j) ->
  extract p j = inr (Val x) ->
  truthy_json x = true ->
  exists t rs,
    collect w prompt = (t, inr rs) /\
    lookup (key p) rs = Val x.
Proof.
  intros Hc Hu Hx Ht.
  exists (sequential_calls w prompt), (results_of w prompt).
  split; [apply collect_eq|].
  rewrite lookup_results, Hc. unfold recorded, request_of.
  rewrite Hu. simpl. rewrite Hx. simpl. rewrite Ht. reflexivity.
Qed.

Lemma truthy_extraction_is_recorded_as_is_witness :
  exists t rs,
    collect world_single (JString (lit "Explain 5G")) = (t, inr rs) /\
    lookup (key Chatgpt) rs = Val (JString (lit "5G is...")).
Proof.
  apply (truthy_extraction_is_recorded_as_is
           world_single (JString (lit "Explain 5G")) Chatgpt
           200 (chat_answer (lit "5G is...")) (JString (lit "5G is...")));
    reflexivity.
Defined.

(** X17. When the extraction path leads nowhere (a field of the path is
    missing, whatever the status), the pretty-printed decoded body is
    recorded. *)
Theorem missing_extraction_records_the_raw_body
    (w : world) (prompt : json) (p : provider) (status : Z) (j : json) :
  configured (env w) p = true ->
  upstream w p (request_for p (api_key (env w) p) prompt)
    = Responded status (inr j) ->
  extract p j = inr Undefined ->
  exists t rs,
    collect w prompt = (t, inr rs) /\
    lookup (key p) rs = Val (JString (stringify j)).
Proof.
  intros Hc Hu Hx.
  exists (sequential_calls w prompt), (results_of w prompt).
  split; [apply collect_eq|].
  rewrite lookup_results, Hc. unfold recorded, request_of.
  rewrite Hu. simpl. rewrite Hx. reflexivity.
Qed.

Lemma missing_extraction_records_the_raw_body_witness :
  exists t rs,
    collect world_failing (JString (lit "X")) = (t, inr rs) /\
    lookup (key Chatgpt) rs = Val (JString (stringify invalid_key_body)).
Proof.
  apply (missing_extraction_records_the_raw_body
           world_failing (JString (lit "X")) Chatgpt 401 invalid_key_body);
    reflexivity.
Defined.

(** X18. A body that decodes to anything but [null] never makes the [try]
    of a provider throw, whatever its shape and whatever the status:
    the block assigns the extracted value or the pretty-printed body. *)
Theorem decoded_body_is_recorded_without_throwing
    (w : world) (prompt : json) (p : provider) (before : results_map)
    (status : Z) (j : json) :
  upstream w p (request_for p (api_key (env w) p) prompt)
    = Responded status (inr j) ->
  j <> JNull ->
  exists x,
    extract p j = inr x /\
    snd (provider_try w prompt p before)
      = inr (set_prop (key p) (or_else x (JString (stringify j))) before).
Proof.
  intros Hu Hj. unfold provider_try, fetch, response_json. rewrite Hu.
  destruct j; try contradiction;
    destruct p; eexists; (split; [reflexivity|]); reflexivity.
Qed.

Lemma decoded_body_is_recorded_without_throwing_witness :
  exists x,
    extract Chatgpt invalid_key_body = inr x /\
    snd (provider_try world_failing (JString (lit "X")) Chatgpt [])
      = inr (set_prop (key Chatgpt)
               (or_else x (JString (stringify invalid_key_body))) []).
Proof.
  apply (decoded_body_is_recorded_without_throwing
           world_failing (JString (lit "X")) Chatgpt [] 401 invalid_key_body).
  - reflexivity.
  - discriminate.
Defined.

(** X19. A credential that is set but empty disables its provider like a
    missing one: the provider is not called and gets no key. *)
Theorem blank_credential_disables_its_provider
    (w : world) (prompt : json) (p : provider) :
  credential (env w) p = Some [] ->
  exists t rs,
    collect w prompt = (t, inr rs) /\
    calls_to p t = 0%nat /\
    lookup (key p) rs = Undefined.
Proof.
  intros Hc.
  assert (Hn : configured (env w) p = false)
    by (unfold configured; rewrite Hc; reflexivity).
  exists (sequential_calls w prompt), (results_of w prompt).
  split; [apply collect_eq|]. split.
  - rewrite calls_to_sequential, Hn. reflexivity.
  - rewrite lookup_results, Hn. reflexivity.
Qed.

Lemma blank_credential_disables_its_provider_witness :
  exists t rs,
    collect (World (Env (Some []) (Some (lit "g-key")) None None None)
               (fun _ _ => Rejected fetch_failed) zip_header_renderer 0)
            (JString (lit "X")) = (t, inr rs) /\
    calls_to Chatgpt t = 0%nat /\
    lookup (key Chatgpt) rs = Undefined.
Proof.
  apply (blank_credential_disables_its_provider
           (World (Env (Some []) (Some (lit "g-key")) None None None)
              (fun _ _ => Rejected fetch_failed) zip_header_renderer 0)
           (JString (lit "X")) Chatgpt).
  reflexivity.
Defined.

(** *** No blank content slide *)

Lemma dec_nonempty (z : Z) : dec z <> [].
Proof.
  unfold dec. destruct (Z.to_int z) as [d | d].
  - destruct d; simpl; discriminate.
  - simpl. discriminate.
Qed.

Lemma stringify_nonempty (j : json) : stringify j <> [].
Proof.
  unfold stringify. destruct j as [|b|z|s|items|props].
  - simpl. discriminate.
  - destruct b; simpl; discriminate.
  - apply dec_nonempty.
  - simpl. discriminate.
  - destruct items; simpl; discriminate.
  - destruct props; simpl; discriminate.
Qed.

Lemma truncated_nonempty (c : jsstring) : c <> [] -> truncated c <> [].
Proof.
  intros Hc. unfold truncated.
  destruct (Nat.ltb 3500 (List.length c)); [|exact Hc].
  intros H. apply (f_equal (@List.length _)) in H.
  rewrite length_app, tail_length in H. simpl in H. lia.
Qed.

Lemma content_of_truthy_nonempty (x : json) :
  truthy_json x = true -> content_of x <> [].
Proof.
  destruct x as [|b|z|s|items|props]; simpl; intros H;
    try discriminate H;
    try (apply (stringify_nonempty (JBool b)));
    try (apply (stringify_nonempty (JNumber z)));
    try (apply (stringify_nonempty (JArray items)));
    try (apply (stringify_nonempty (JObject props))).
  destruct s; [discriminate H | discriminate].
Qed.

(** X20. Whatever a provider answers, the body of its content slide is not
    empty: it shows the answer, the pretty-printed body or an error
    text. *)
Theorem content_slide_body_is_never_empty
    (w : world) (prompt : json) (p : provider) :
  body_of (content_slide (key p) (recorded w prompt p)) <> [].
Proof.
  unfold body_of. cbn [content_slide blocks text].
  apply truncated_nonempty. unfold recorded, outcome_value.
  assert (Herr : forall e, content_of (error_text e) <> [])
    by (intros e; simpl; discriminate).
  destruct (upstream w p (request_of w prompt p)) as [e | st [e | j]];
    try apply Herr.
  destruct (extract p j) as [e | [|x]]; try apply Herr.
  - apply stringify_nonempty.
  - unfold or_else. destruct (truthy_json x) eqn:Ht.
    + apply content_of_truthy_nonempty. exact Ht.
    + apply stringify_nonempty.
Qed.

(** *** File names *)

Lemma lit_injective (a b : string) : lit a = lit b -> a = b.
Proof.
  unfold lit. revert b. induction a as [|c a IH]; intros [|d b] H;
    simpl in H; try discriminate H; [reflexivity|].
  inversion H as [[Hc Hrest]]. f_equal.
  - rewrite <- (ascii_N_embedding c), <- (ascii_N_embedding d), Hc.
    reflexivity.
  - apply IH. exact Hrest.
Qed.

Lemma to_int_not_nil (z : Z) :
  Z.to_int z <> Decimal.Pos Decimal.Nil /\ Z.to_int z <> Decimal.Neg Decimal.Nil.
Proof.
  destruct z as [|p|p]; simpl; split; try discriminate;
    intros H; inversion H as [Hp];
    apply (DecimalPos.Unsigned.to_uint_nonnil p); exact Hp.
Qed.

Lemma dec_injective (a b : Z) : dec a = dec b -> a = b.
Proof.
  unfold dec. intros H. apply lit_injective in H.
  apply DecimalZ.to_int_inj.
  destruct (to_int_not_nil a) as [Ha1 Ha2].
  destruct (to_int_not_nil b) as [Hb1 Hb2].
  pose proof (NilZero.isi (Z.to_int a) Ha1 Ha2) as Ia.
  pose proof (NilZero.isi (Z.to_int b) Hb1 Hb2) as Ib.
  rewrite H in Ia. rewrite Ia in Ib. inversion Ib. reflexivity.
Qed.

(** X21. Requests that read different clock values get different file
    names. *)
Theorem file_names_differ_with_the_clock (t1 t2 : Z) :
  t1 <> t2 -> file_name t1 <> file_name t2.
Proof.
  unfold file_name. intros Ht H. apply Ht.
  apply app_inv_head in H. apply app_inv_tail in H.
  apply dec_injective. exact H.
Qed.

Lemma file_names_differ_with_the_clock_witness :
  file_name 1700000000000 <> file_name 1700000000001.
Proof.
  apply (file_names_differ_with_the_clock 1700000000000 1700000000001).
  discriminate.
Defined.

(** *** The encoded deck *)

Lemma list_ind3 {A} (P : list A -> Prop) :
  P [] ->
  (forall a, P [a]) ->
  (forall a b, P [a; b]) ->
  (forall a b c l, P l -> P (a :: b :: c :: l)) ->
  forall l, P l.
Proof.
  intros H0 H1 H2 H3. fix IH 1.
  intros [|a [|b [|c l]]]; [exact H0 | apply H1 | apply H2 |].
  apply H3. apply IH.
Qed.

(** X22. The base64 text of a deck of [n] bytes has [4 * ceil (n / 3)] code
    units: always a multiple of four. *)
Theorem base64_length (bs : list Byte.byte) :
  List.length (base64 bs) = (4 * ((List.length bs + 2) / 3))%nat.
Proof.
  induction bs as [| a | a b | a b c l IH] using list_ind3;
    try reflexivity.
  cbn [base64 List.length]. rewrite IH.
  replace (S (S (S (List.length l))) + 2)%nat
    with ((List.length l + 2) + 1 * 3)%nat by lia.
  rewrite Nat.div_add by discriminate. lia.
Qed.

(** *** The build configuration *)

Lemma escape_nonempty (c : code_unit) (s : jsstring) : escape (c :: s) <> [].
Proof.
  simpl.
  repeat match goal with
         | |- context [if ?b then _ else _] => destruct b
         end;
    try discriminate;
    destruct s; simpl; try discriminate;
    repeat match goal with
           | |- context [if ?b then _ else _] => destruct b
           end; discriminate.
Qed.

(** X23. The text substituted for [process.env.API_KEY] is always a quoted
    string literal, never a bare word: the value from the environment
    files when it is not empty, otherwise the one from the process
    environment, and the empty literal exactly when neither is set to a
    non-empty value. *)
Theorem api_key_define_is_a_quoted_literal
    (file_env process_env : option jsstring) :
  exists text,
    ViteConfig.define_api_key (ViteConfig.env_config file_env process_env)
      = Some (quote text) /\
    starts_with [34%N] (quote text) = true /\
    ends_with [34%N] (quote text) = true /\
    (forall c s, file_env = Some (c :: s) -> text = c :: s) /\
    (forall c s, (file_env = None \/ file_env = Some []) ->
                 process_env = Some (c :: s) -> text = c :: s) /\
    (quote text = [34%N; 34%N] <->
     (file_env = None \/ file_env = Some []) /\
     (process_env = None \/ process_env = Some [])).
Proof.
  exists (ViteConfig.first_set file_env process_env).
  split; [reflexivity|]. split; [reflexivity|].
  split; [unfold quote; rewrite app_assoc; apply ends_with_app|].
  split; [intros c s ->; reflexivity|].
  split; [intros c s [-> | ->] ->; reflexivity|].
  assert (Hq : forall x, quote x = [34%N; 34%N] <-> x = []).
  { intros x. split; [|intros ->; reflexivity].
    destruct x as [|c x]; [reflexivity|].
    unfold quote. intros H. exfalso. apply (escape_nonempty c x).
    change ([34%N] ++ escape (c :: x) ++ [34%N] = [34%N] ++ [] ++ [34%N]) in H.
    apply app_inv_head in H. apply app_inv_tail in H. exact H. }
  rewrite Hq. unfold ViteConfig.first_set.
  destruct file_env as [[|c s]|], process_env as [[|d t]|];
    split; intros H; try reflexivity; try discriminate H;
    try (split; auto; fail);
    destruct H as [[H | H] [H' | H']]; discriminate.
Qed.
